(** * Campaign funnel simulation: simulate.py and simulation.py

    A shallow embedding of the two scripts of the repository and the
    properties of their specification.

    Python floats are IEEE 754 binary64 numbers; they are modelled by Rocq's
    primitive floats, whose operations are the same correctly rounded
    binary64 operations.  The scripts are written once over an interface
    [PyFloat] of the float operations they use, so that the same text can
    also be read in exact rational arithmetic, which is where the algebraic
    identities of the funnel hold without rounding. *)

From Stdlib Require Import ZArith List String Ascii Bool Lia Permutation.
From Stdlib Require Import Floats QArith Qround Qcanon Field.
From Stdlib Require Import DecimalString DecimalPos DecimalZ.
From ExtLib Require Import Structures.Monad Structures.MonadExc.
From ExtLib Require Import Data.Monads.EitherMonad.
Import ListNotations.
Import MonadNotation.

Set Warnings "-inexact-float".

Local Open Scope monad_scope.
Local Open Scope string_scope.
Local Open Scope list_scope.
Local Open Scope Z_scope.

(** ** Python values, exceptions and float arithmetic *)

Module Py.

(** The exceptions the two scripts can raise. *)
Inductive exn : Type :=
| ZeroDivisionError
| OverflowError
| ValueError.

(** A computation that returns a value or raises. *)
Abbreviation py A := (sum exn A) (only parsing).

(** The operations on [float] that the scripts use. *)
Class PyFloat (F : Type) : Type := {
  (** conversion of an [int] operand of a mixed operation;
      [None] is "int too large to convert to float" *)
  of_int : Z -> option F;
  fmul : F -> F -> F;
  (** the quotient for a divisor that is not zero *)
  fdiv : F -> F -> F;
  (** [x == 0.0] *)
  is_zero : F -> bool;
  (** the literal [0.0] *)
  fzero : F
}.

(** binary64, the arithmetic of CPython's [float]. *)
#[export] Instance binary64 : PyFloat float := {
  of_int z :=
    match binary_normalize prec emax z 0 false with
    | S754_infinity _ => None
    | sf => Some (SF2Prim sf)
    end;
  fmul := PrimFloat.mul;
  fdiv := PrimFloat.div;
  is_zero x := PrimFloat.eqb x PrimFloat.zero;
  fzero := PrimFloat.zero
}.

(** Exact rational arithmetic: the same operations without rounding. *)
#[export] Instance exact : PyFloat Qc := {
  of_int z := Some (Q2Qc (inject_Z z));
  fmul := Qcmult;
  fdiv := Qcdiv;
  is_zero x := Qc_eq_bool x (Q2Qc 0);
  fzero := Q2Qc 0
}.

Section Values.
Context {F : Type} {PF : PyFloat F}.

Inductive value : Type :=
| VStr (s : string)
| VInt (z : Z)
| VFloat (x : F).

(** A [dict] with string keys, in insertion order. *)
Definition dict : Type := list (string * value).

Fixpoint get (k : string) (d : dict) : option value :=
  match d with
  | [] => None
  | (k', v) :: d' => if String.eqb k k' then Some v else get k d'
  end.

Definition keys (d : dict) : list string := map fst d.

Definition as_float (z : Z) : py F :=
  match of_int z with
  | Some x => ret x
  | None => raise OverflowError
  end.

(** [x / y] on floats: "float division by zero" when [y == 0.0]. *)
Definition truediv (x y : F) : py F :=
  if is_zero y then raise ZeroDivisionError else ret (fdiv x y).

(** [n / y] with [n] an [int] and [y] a [float]. *)
Definition int_truediv (n : Z) (y : F) : py F :=
  x <- as_float n ;; truediv x y.

(** [x / n] with [x] a [float] and [n] an [int]. *)
Definition truediv_int (x : F) (n : Z) : py F :=
  y <- as_float n ;; truediv x y.

(** [x * n] with [x] a [float] and [n] an [int]. *)
Definition mul_int (x : F) (n : Z) : py F :=
  y <- as_float n ;; ret (fmul x y).

(** A [for] loop that appends one row per item to [results]. *)
Fixpoint for_append {A : Type} (body : A -> py dict) (items : list A)
    (results : list dict) : py (list dict) :=
  match items with
  | [] => ret results
  | item :: rest =>
      row <- body item ;;
      for_append body rest (results ++ [row])
  end.
End Values.

Arguments value F : clear implicits.
Arguments dict F : clear implicits.

End Py.

Import Py.

(** ** Numbers as text: [str], [repr], [int] and [float]

    [str] of an [int] is its decimal numeral.  [repr] of a [float], which is
    also its [str], is the shortest decimal numeral that [float] reads back
    as the same number, laid out in positional or exponent notation. *)

Module Text.

(** [str(n)] for an [int]. *)
Definition str_int (z : Z) : string := NilZero.string_of_int (Z.to_int z).

(** The binary64 number nearest to [num / den], ties to even. *)
Definition nearest_float (neg : bool) (num den : positive) : float :=
  SF2Prim (SFdiv prec emax (S754_finite neg num 0) (S754_finite false den 0)).

(** The binary64 number nearest to [d * 10^k]. *)
Definition decimal_to_float (neg : bool) (d : positive) (k : Z) : float :=
  match k with
  | Zneg p => nearest_float neg d (10 ^ p)%positive
  | _ => nearest_float neg (d * Z.to_pos (10 ^ k))%positive 1
  end.

(** [num / den] as [y * 10^s]: the integer part of [y]. *)
Definition scaled (num den : positive) (s : Z) : Z :=
  match s with
  | Zneg p => (Zpos num * 10 ^ Zpos p) / Zpos den
  | _ => Zpos num / (Zpos den * 10 ^ s)
  end.

(** The position [p] of the decimal point of [num / den], with
    [10^(p-1) <= num/den < 10^p]: an estimate from the binary logarithms,
    at most two off, moved down and then up to its place. *)
Fixpoint adjust_up (fuel : nat) (num den : positive) (p : Z) : Z :=
  match fuel with
  | O => p
  | S fuel' =>
      (* while num/den >= 10^p *)
      if 0 <? scaled num den p then adjust_up fuel' num den (p + 1) else p
  end.

Fixpoint adjust_down (fuel : nat) (num den : positive) (p : Z) : Z :=
  match fuel with
  | O => p
  | S fuel' =>
      (* while num/den < 10^(p-1) *)
      if scaled num den (p - 1) =? 0 then adjust_down fuel' num den (p - 1)
      else p
  end.

Definition decimal_point (num den : positive) : Z :=
  let guess := (Z.log2 (Zpos num) - Z.log2 (Zpos den)) * 30103 / 100000 in
  adjust_up 4 num den (adjust_down 4 num den (guess + 2)).

(** The two numerals with [n] digits next to [x = num / den], below and
    above, and the one, if any, that reads back as [x]; when both do, the
    nearer to [x], ties to the even digit. *)
Definition candidate (x : float) (num den : positive) (p : Z) (n : Z)
    : option (positive * Z) :=
  let s := p - n in
  let lo := scaled num den s in
  let hi := lo + 1 in
  let ok d :=
    match d with
    | Zpos d' => PrimFloat.eqb (decimal_to_float false d' s) x
    | _ => false
    end in
  (* twice the remainder against the unit in the last place *)
  let side :=
    match s with
    | Zneg q =>
        let y := Zpos num * 10 ^ Zpos q in
        2 * (y - lo * Zpos den) ?= Zpos den
    | _ =>
        let u := Zpos den * 10 ^ s in
        2 * (Zpos num - lo * u) ?= u
    end in
  let nearest :=
    match side with
    | Lt => lo
    | Gt => hi
    | Eq => if Z.even lo then lo else hi
    end in
  match ok lo, ok hi with
  | true, true => Some (Z.to_pos nearest, s)
  | true, false => Some (Z.to_pos lo, s)
  | false, true => Some (Z.to_pos hi, s)
  | false, false => None
  end.

(** The shortest numeral that reads back as [x], trying [n], [n + 1], ...
    digits; 17 digits are enough for every binary64 number. *)
Fixpoint shortest (fuel : nat) (x : float) (num den : positive) (p n : Z)
    : positive * Z :=
  match candidate x num den p n with
  | Some ds => ds
  | None =>
      match fuel with
      | O => (Z.to_pos (scaled num den (p - n)), p - n)
      | S fuel' => shortest fuel' x num den p (n + 1)
      end
  end.

(** [d * 10^s] without the trailing zeros of [d]. *)
Fixpoint strip_zeros (fuel : nat) (d : positive) (s : Z) : positive * Z :=
  match fuel with
  | O => (d, s)
  | S fuel' =>
      if Zpos d mod 10 =? 0
      then strip_zeros fuel' (Z.to_pos (Zpos d / 10)) (s + 1)
      else (d, s)
  end.

Fixpoint zeros (n : nat) : string :=
  match n with O => "" | S n' => String "0" (zeros n') end.

(** The digits [ds] with the decimal point after the first [decpt] digits,
    as [repr] lays them out: exponent notation when [decpt <= -4] or
    [decpt > 16], positional notation otherwise, with [.0] after an
    integer. *)
Definition layout (ds : string) (decpt : Z) : string :=
  let n := Z.of_nat (String.length ds) in
  if (decpt <=? -4) || (16 <? decpt) then
    let e := decpt - 1 in
    let mant :=
      match ds with
      | String c EmptyString => ds
      | String c rest => String c (String "." rest)
      | EmptyString => ds
      end in
    let es := str_int (Z.abs e) in
    let es := if Z.abs e <? 10 then String "0" es else es in
    mant ++ "e" ++ (if e <? 0 then "-" else "+") ++ es
  else if decpt <=? 0 then
    "0." ++ zeros (Z.to_nat (- decpt)) ++ ds
  else if n <=? decpt then
    ds ++ zeros (Z.to_nat (decpt - n)) ++ ".0"
  else
    substring 0 (Z.to_nat decpt) ds ++ "."
      ++ substring (Z.to_nat decpt) (Z.to_nat (n - decpt)) ds.

(** [repr(x)] for a [float]: the shortest decimal string that reads back as
    [x]. *)
Definition repr_float (x : float) : string :=
  match Prim2SF x with
  | S754_nan => "nan"
  | S754_infinity s => if s then "-inf" else "inf"
  | S754_zero s => if s then "-0.0" else "0.0"
  | S754_finite s m e =>
      let '(num, den) :=
        match e with
        | Zneg q => (m, (2 ^ q)%positive)
        | _ => ((m * Z.to_pos (2 ^ e))%positive, 1%positive)
        end in
      let p := decimal_point num den in
      let '(d, k) := shortest 16 (abs x) num den p 1 in
      let '(d, k) := strip_zeros 400 d k in
      let ds := str_int (Zpos d) in
      let decpt := Z.of_nat (String.length ds) + k in
      (if s then "-" else "") ++ layout ds decpt
  end.

(** Reading a decimal numeral: the value of the leading digits, their
    number, and the rest of the string. *)
Definition digit_of (c : ascii) : option Z :=
  let n := Z.of_nat (nat_of_ascii c) in
  if (48 <=? n) && (n <=? 57) then Some (n - 48) else None.

Fixpoint take_digits (s : string) (acc : Z) (count : Z) : Z * Z * string :=
  match s with
  | String c s' =>
      match digit_of c with
      | Some d => take_digits s' (10 * acc + d) (count + 1)
      | None => (acc, count, s)
      end
  | EmptyString => (acc, count, s)
  end.

Definition take_sign (s : string) : bool * string :=
  match s with
  | String "-" s' => (true, s')
  | String "+" s' => (false, s')
  | _ => (false, s)
  end.

(** [int(s)] for a decimal numeral. *)
Definition int_of_str (s : string) : option Z :=
  option_map Z.of_int (NilZero.int_of_string s).

(** [float(s)] for a decimal numeral, [inf] or [nan]. *)
Definition float_of_str (s : string) : option float :=
  let '(neg, s1) := take_sign s in
  if String.eqb s1 "nan" then Some nan
  else if String.eqb s1 "inf" || String.eqb s1 "infinity"
  then Some (if neg then neg_infinity else infinity)
  else
    let '(ip, ni, s2) := take_digits s1 0 0 in
    let '(m, nf, s3) :=
      match s2 with
      | String "." s2' => take_digits s2' ip 0
      | _ => (ip, 0, s2)
      end in
    let exponent :=
      match s3 with
      | EmptyString => Some 0
      | String c s3' =>
          if (c =? "e")%char || (c =? "E")%char then
            let '(eneg, s4) := take_sign s3' in
            let '(e, ne, s5) := take_digits s4 0 0 in
            if (0 <? ne) && (String.eqb s5 "")
            then Some (if eneg then - e else e) else None
          else None
      end in
    match exponent with
    | Some e =>
        if 0 <? ni + nf then
          match m with
          | Zpos d => Some (decimal_to_float neg d (e - nf))
          | _ => Some (if neg then neg_zero else zero)
          end
        else None
    | None => None
    end.

(** [str(v)] for the values of a row. *)
Definition str_value (v : value float) : string :=
  match v with
  | VStr s => s
  | VInt z => str_int z
  | VFloat x => repr_float x
  end.

End Text.

(** ** The [csv] module, with the default ("excel") dialect *)

Module Csv.

Definition quotechar : ascii := "034"%char.
Definition CR : ascii := "013"%char.
Definition LF : ascii := "010"%char.
Definition lineterminator : string := String CR (String LF "").

(** The characters that make the writer quote a field. *)
Definition special (c : ascii) : bool :=
  (c =? ",")%char || (c =? quotechar)%char || (c =? CR)%char
  || (c =? LF)%char.

Fixpoint needs_quotes (s : string) : bool :=
  match s with
  | EmptyString => false
  | String c s' => special c || needs_quotes s'
  end.

Fixpoint double_quotes (s : string) : string :=
  match s with
  | EmptyString => EmptyString
  | String c s' =>
      if (c =? quotechar)%char
      then String quotechar (String quotechar (double_quotes s'))
      else String c (double_quotes s')
  end.

Definition quote_field (s : string) : string :=
  if needs_quotes s
  then String quotechar (double_quotes s ++ String quotechar "")
  else s.

(** [writer.writerow]: the record of a list of fields, with minimal
    quoting; a lone empty field is written quoted. *)
Definition writerow (terminator : string) (fields : list string) : string :=
  match fields with
  | [EmptyString] => String quotechar (String quotechar terminator)
  | _ => String.concat "," (map quote_field fields) ++ terminator
  end.

(** [writer.writerows]. *)
Fixpoint writerows (terminator : string) (rows : list (list string))
    : string :=
  match rows with
  | [] => EmptyString
  | fields :: rows' =>
      (writerow terminator fields ++ writerows terminator rows')%string
  end.

(** [DictWriter._dict_to_list]: a key outside the field names is an error,
    a missing key is written as the empty string. *)
Definition dict_to_list (fieldnames : list string) (rowdict : dict float)
    : py (list string) :=
  if forallb (fun k => existsb (String.eqb k) fieldnames) (keys rowdict)
  then ret (map (fun k =>
                   match get k rowdict with
                   | Some v => Text.str_value v
                   | None => EmptyString
                   end) fieldnames)
  else raise ValueError.

(** [DictWriter.writerow]. *)
Definition dictwriter_writerow (fieldnames : list string)
    (rowdict : dict float) : py string :=
  fields <- dict_to_list fieldnames rowdict ;;
  ret (writerow lineterminator fields).

(** [DictWriter.writeheader]. *)
Definition writeheader (fieldnames : list string) : string :=
  writerow lineterminator fieldnames.

End Csv.

(** ** simulate.py (variant 1) *)

Module Simulate.

Section Generic.
Context {F : Type} {PF : PyFloat F}.

Local Infix "*" := fmul.

(** One entry of the [scenarios] list:
    [(name, budget, days, cpv, ctr, conv)]. *)
Definition scenario : Type := (string * Z * Z * F * F * F)%type.

Definition scenarios (cpv_small cpv_large ctr_small ctr_large
    conv_small conv_large : F) : list scenario :=
  [ ("Small", 100, 5, cpv_small, ctr_small, conv_small);
    ("Baseline", 200, 10, cpv_small, ctr_small, conv_small);
    ("Large", 500, 30, cpv_large, ctr_large, conv_large);
    ("Long", 400, 60, cpv_large, ctr_large, conv_large) ].

(** The body of the loop of [run_scenarios]: the metrics of one scenario
    and the row appended to [results]. *)
Definition scenario_row (revenue_per_sale profit_per_sale : F)
    (s : scenario) : py (dict F) :=
  let '(name, budget, days, cpv, ctr, conv) := s in
  views <- int_truediv budget cpv ;;
  let clicks := views * ctr in
  let conversions := clicks * conv in
  let revenue := conversions * revenue_per_sale in
  let profit := conversions * profit_per_sale in
  roi <- (if negb (budget =? 0) then truediv_int revenue budget
          else ret fzero) ;;
  ret [ ("Scenario", VStr name);
        ("Budget", VInt budget);
        ("Days", VInt days);
        ("Views", VFloat views);
        ("Clicks", VFloat clicks);
        ("Conversions", VFloat conversions);
        ("Revenue", VFloat revenue);
        ("Profit", VFloat profit);
        ("ROI", VFloat roi) ].

Definition run_scenarios (cpv_small cpv_large ctr_small ctr_large
    conv_small conv_large revenue_per_sale profit_per_sale : F)
    : py (list (dict F)) :=
  for_append (scenario_row revenue_per_sale profit_per_sale)
    (scenarios cpv_small cpv_large ctr_small ctr_large
       conv_small conv_large)
    [].
End Generic.

Arguments scenario F : clear implicits.

(** The command line of [parse_args]; every option has a default. *)
Record args : Type := {
  output : option string;
  cpv_small : float;
  cpv_large : float;
  ctr_small : float;
  ctr_large : float;
  conv_small : float;
  conv_large : float;
  revenue_per_sale : float;
  profit_per_sale : float
}.

(** [parse_args()] on an empty command line. *)
Definition default_args : args := {|
  output := None;
  cpv_small := 0.06%float;
  cpv_large := 0.05%float;
  ctr_small := 0.05%float;
  ctr_large := 0.06%float;
  conv_small := 0.04%float;
  conv_large := 0.05%float;
  revenue_per_sale := 100.0%float;
  profit_per_sale := 50.0%float
|}.

(** The [results] that [main] computes from the parsed arguments. *)
Definition main_results (a : args) : py (list (dict float)) :=
  run_scenarios (cpv_small a) (cpv_large a) (ctr_small a) (ctr_large a)
    (conv_small a) (conv_large a) (revenue_per_sale a) (profit_per_sale a).

Definition fieldnames : list string :=
  ["Scenario"; "Budget"; "Days"; "Views"; "Clicks"; "Conversions";
   "Revenue"; "Profit"; "ROI"].

(** The loop of [save_to_csv]: one record per row, appended to the file. *)
Fixpoint write_rows (rows : list (dict float)) (content : string)
    : py string :=
  match rows with
  | [] => ret content
  | row :: rest =>
      line <- Csv.dictwriter_writerow fieldnames row ;;
      write_rows rest (content ++ line)%string
  end.

(** [save_to_csv(results, output_path)]: the content of the file written.
    The file is opened with [newline=""], so the content is written as it
    is. *)
Definition save_to_csv (results : list (dict float)) : py string :=
  write_rows results (Csv.writeheader fieldnames).

(** [main]: the content of the CSV file when [--output] is given and not
    empty; otherwise the results are printed and no file is written. *)
Definition main (a : args) : py (option string) :=
  results <- main_results a ;;
  match output a with
  | Some (String _ _) =>
      content <- save_to_csv results ;; ret (Some content)
  | _ => ret None
  end.

End Simulate.

(** ** simulation.py (variant 2) *)

Module Simulation.

Section Generic.
Context {F : Type} {PF : PyFloat F}.

Local Infix "*" := fmul.

(** One scenario dictionary of [run_simulation]; the budget, the days and
    the two per-sale amounts are [int] literals, the rates are floats. *)
Record scenario : Type := {
  Scenario : string;
  Budget : Z;
  Days : Z;
  CPV : F;
  CTR : F;
  ConvRate : F;
  RevenuePerSale : Z;
  ProfitPerSale : Z
}.

(** The body of the loop of [run_simulation]. *)
Definition simulation_row (s : scenario) : py (dict F) :=
  let budget := Budget s in
  views <- int_truediv budget (CPV s) ;;
  let clicks := views * CTR s in
  let conversions := clicks * ConvRate s in
  revenue <- mul_int conversions (RevenuePerSale s) ;;
  profit <- mul_int conversions (ProfitPerSale s) ;;
  roi <- truediv_int profit budget ;;
  ret [ ("Scenario", VStr (Scenario s));
        ("Budget", VInt budget);
        ("Days", VInt (Days s));
        ("Views", VFloat views);
        ("Clicks", VFloat clicks);
        ("Conversions", VFloat conversions);
        ("Revenue", VFloat revenue);
        ("Profit", VFloat profit);
        ("ROI", VFloat roi) ].

(** The rows that [run_simulation] puts in its data frame, for a given
    list of scenarios. *)
Definition simulate (scs : list scenario) : py (list (dict F)) :=
  for_append simulation_row scs [].
End Generic.

Arguments scenario F : clear implicits.

(** The [scenarios] list of [run_simulation]. *)
Definition scenarios : list (scenario float) :=
  [ {| Scenario := "Small"; Budget := 100; Days := 5;
       CPV := 0.06%float; CTR := 0.05%float; ConvRate := 0.04%float;
       RevenuePerSale := 100; ProfitPerSale := 50 |};
    {| Scenario := "Baseline"; Budget := 200; Days := 10;
       CPV := 0.06%float; CTR := 0.05%float; ConvRate := 0.04%float;
       RevenuePerSale := 100; ProfitPerSale := 50 |};
    {| Scenario := "Large"; Budget := 500; Days := 30;
       CPV := 0.05%float; CTR := 0.06%float; ConvRate := 0.05%float;
       RevenuePerSale := 100; ProfitPerSale := 50 |};
    {| Scenario := "Long"; Budget := 400; Days := 60;
       CPV := 0.05%float; CTR := 0.06%float; ConvRate := 0.05%float;
       RevenuePerSale := 100; ProfitPerSale := 50 |} ].

(** The [rows] of [run_simulation]. *)
Definition rows : py (list (dict float)) := simulate scenarios.

(** [os.linesep], the default line terminator of [to_csv]. *)
Inductive platform : Type := Posix | Windows.

Definition linesep (os : platform) : string :=
  match os with
  | Posix => String Csv.LF ""
  | Windows => String Csv.CR (String Csv.LF "")
  end.

(** [pd.DataFrame(rows)] for a list of dictionaries: the columns are the
    keys in the order of their first appearance. *)
Record DataFrame : Type := {
  columns : list string;
  records : list (dict float)
}.

Fixpoint add_keys (cols ks : list string) : list string :=
  match ks with
  | [] => cols
  | k :: ks' =>
      add_keys (if existsb (String.eqb k) cols then cols else cols ++ [k])
        ks'
  end.

Definition data_frame (rs : list (dict float)) : DataFrame := {|
  columns := fold_left (fun cols r => add_keys cols (keys r)) rs [];
  records := rs
|}.

(** [df.to_csv(path, index=False)]: the content of the file written, a
    header record with the column names and one record per row, each
    ended by the line separator of the platform. *)
Definition to_csv (os : platform) (df : DataFrame) : string :=
  (Csv.writerow (linesep os) (columns df)
   ++ Csv.writerows (linesep os)
        (map (fun r =>
                map (fun k =>
                       match get k r with
                       | Some v => Text.str_value v
                       | None => EmptyString
                       end) (columns df))
           (records df)))%string.

(** [run_simulation()]: the data frame it returns and the content of
    [simulation_results.csv]. *)
Definition run_simulation (os : platform) : py (DataFrame * string) :=
  rs <- rows ;;
  let df := data_frame rs in
  ret (df, to_csv os df).

End Simulation.

(** ** Reading a CSV file back *)

Module Reader.

Inductive mode : Type :=
| START_RECORD
| START_FIELD
| IN_FIELD
| IN_QUOTED_FIELD
| QUOTE_IN_QUOTED_FIELD
| EAT_LF.

Record reader : Type := {
  state : mode;
  field : string;
  fields : list string;
  records : list (list string)
}.

Definition set_state (r : reader) (m : mode) : reader :=
  {| state := m; field := field r; fields := fields r;
     records := records r |}.

Definition add_char (r : reader) (c : ascii) : reader :=
  {| state := state r; field := (field r ++ String c "")%string;
     fields := fields r; records := records r |}.

Definition save_field (r : reader) : reader :=
  {| state := START_FIELD; field := ""; fields := fields r ++ [field r];
     records := records r |}.

Definition end_record (r : reader) (m : mode) : reader :=
  {| state := m; field := ""; fields := [];
     records := records r ++ [fields r] |}.

Definition is_newline (c : ascii) : bool :=
  (c =? Csv.CR)%char || (c =? Csv.LF)%char.

Definition after_newline (c : ascii) : mode :=
  if (c =? Csv.CR)%char then EAT_LF else START_RECORD.

Definition start_field (r : reader) (c : ascii) : reader :=
  if is_newline c then end_record (save_field r) (after_newline c)
  else if (c =? Csv.quotechar)%char then set_state r IN_QUOTED_FIELD
  else if (c =? ",")%char then save_field r
  else add_char (set_state r IN_FIELD) c.

Definition start_record (r : reader) (c : ascii) : reader :=
  if is_newline c then end_record r (after_newline c)
  else start_field r c.

(** Modelled from the spec: the reader of the round-trip property, which
    the repository does not have.  It is the state machine of a CSV reader
    for the dialect of the writer: fields are separated by commas, records
    end with CR, LF or CR LF, a field may be quoted, and a doubled quote
    inside a quoted field is a quote. *)
Definition process_char (r : reader) (c : ascii) : reader :=
  match state r with
  | START_RECORD => start_record r c
  | EAT_LF =>
      if (c =? Csv.LF)%char then set_state r START_RECORD
      else start_record r c
  | START_FIELD => start_field r c
  | IN_FIELD =>
      if is_newline c then end_record (save_field r) (after_newline c)
      else if (c =? ",")%char then save_field r
      else add_char r c
  | IN_QUOTED_FIELD =>
      if (c =? Csv.quotechar)%char then set_state r QUOTE_IN_QUOTED_FIELD
      else add_char r c
  | QUOTE_IN_QUOTED_FIELD =>
      if (c =? Csv.quotechar)%char then add_char (set_state r IN_QUOTED_FIELD) c
      else if (c =? ",")%char then save_field r
      else if is_newline c then end_record (save_field r) (after_newline c)
      else add_char (set_state r IN_FIELD) c
  end.

Fixpoint feed (r : reader) (s : string) : reader :=
  match s with
  | EmptyString => r
  | String c s' => feed (process_char r c) s'
  end.

Definition finish (r : reader) : list (list string) :=
  match state r with
  | START_RECORD | EAT_LF => records r
  | _ => records (end_record (save_field r) START_RECORD)
  end.

(** Modelled from the spec: the records of a CSV file, each a list of
    fields. *)
Definition read_records (content : string) : list (list string) :=
  finish (feed {| state := START_RECORD; field := ""; fields := [];
                  records := [] |} content).

(** Modelled from the spec: the value of a cell, by its column: the
    scenario is a string, the budget and the days are integers and the
    metrics are floats. *)
Definition convert (k cell : string) : py (value float) :=
  if String.eqb k "Scenario" then ret (VStr cell)
  else if String.eqb k "Budget" || String.eqb k "Days" then
    match Text.int_of_str cell with
    | Some z => ret (VInt z)
    | None => raise ValueError
    end
  else
    match Text.float_of_str cell with
    | Some x => ret (VFloat x)
    | None => raise ValueError
    end.

Fixpoint read_row (header cells : list string) : py (dict float) :=
  match header, cells with
  | k :: header', cell :: cells' =>
      v <- convert k cell ;;
      rest <- read_row header' cells' ;;
      ret ((k, v) :: rest)
  | _, _ => ret []
  end.

Fixpoint read_rows (header : list string) (recs : list (list string))
    : py (list (dict float)) :=
  match recs with
  | [] => ret []
  | [] :: recs' => read_rows header recs'
  | cells :: recs' =>
      row <- read_row header cells ;;
      rest <- read_rows header recs' ;;
      ret (row :: rest)
  end.

(** Modelled from the spec: reading the table back, the first record being
    the header and every other record a row. *)
Definition load_csv (content : string) : py (list (dict float)) :=
  match read_records content with
  | [] => ret []
  | header :: recs => read_rows header recs
  end.

End Reader.

(** ** Vocabulary of the specification *)

Section Vocabulary.
Context {F : Type} {PF : PyFloat F}.

(** The funnel equations on the row of a scenario. *)
Definition funnel (budget : Z) (cpv ctr conv rps pps : F)
    (row : dict F) : Prop :=
  exists b views clicks conversions revenue profit,
    of_int budget = Some b /\
    get "Budget" row = Some (VInt budget) /\
    get "Views" row = Some (VFloat views) /\
    get "Clicks" row = Some (VFloat clicks) /\
    get "Conversions" row = Some (VFloat conversions) /\
    get "Revenue" row = Some (VFloat revenue) /\
    get "Profit" row = Some (VFloat profit) /\
    views = fdiv b cpv /\
    clicks = fmul views ctr /\
    conversions = fmul clicks conv /\
    revenue = fmul conversions rps /\
    profit = fmul conversions pps.

Definition funnel_v1 (rps pps : F) (s : Simulate.scenario F)
    (row : dict F) : Prop :=
  let '(_, budget, _, cpv, ctr, conv) := s in
  funnel budget cpv ctr conv rps pps row.

Definition funnel_v2 (s : Simulation.scenario F) (row : dict F) : Prop :=
  exists rps pps,
    of_int (Simulation.RevenuePerSale s) = Some rps /\
    of_int (Simulation.ProfitPerSale s) = Some pps /\
    funnel (Simulation.Budget s) (Simulation.CPV s) (Simulation.CTR s)
      (Simulation.ConvRate s) rps pps row.

(** The return on investment of a row is its revenue over its budget. *)
Definition roi_revenue_over_budget (row : dict F) : Prop :=
  exists budget b revenue,
    get "Budget" row = Some (VInt budget) /\
    of_int budget = Some b /\
    get "Revenue" row = Some (VFloat revenue) /\
    get "ROI" row = Some (VFloat (fdiv revenue b)).

(** The return on investment of a row is its profit over its budget. *)
Definition roi_profit_over_budget (row : dict F) : Prop :=
  exists budget b profit,
    get "Budget" row = Some (VInt budget) /\
    of_int budget = Some b /\
    get "Profit" row = Some (VFloat profit) /\
    get "ROI" row = Some (VFloat (fdiv profit b)).

(** A row is the row of the scenario with this name, budget and duration
    and these rates. *)
Definition row_of (rps pps : F) (s : Simulate.scenario F)
    (row : dict F) : Prop :=
  let '(name, budget, days, cpv, ctr, conv) := s in
  get "Scenario" row = Some (VStr name) /\
  get "Budget" row = Some (VInt budget) /\
  get "Days" row = Some (VInt days) /\
  funnel budget cpv ctr conv rps pps row.

(** The computed metrics of a row, and of the outcome of a loop body. *)
Definition metrics (row : dict F) : list (option (value F)) :=
  map (fun k => get k row)
    ["Views"; "Clicks"; "Conversions"; "Revenue"; "Profit"; "ROI"].

Definition metrics_of (r : py (dict F)) : py (list (option (value F))) :=
  match r with
  | inl e => inl e
  | inr row => inr (metrics row)
  end.
End Vocabulary.

(** The exact value of a finite float, as a rational. *)
Definition exact_value (x : float) : option Q :=
  match Prim2SF x with
  | S754_zero _ => Some 0%Q
  | S754_finite s m e =>
      Some ((if s then -1 else 1) * inject_Z (Zpos m) * Qpower 2 e)%Q
  | S754_infinity _ | S754_nan => None
  end.

(** The nearest integer, ties to even. *)
Definition round_half_even (q : Q) : Z :=
  let f := Qfloor q in
  match Qcompare (q - inject_Z f) (1 # 2) with
  | Lt => f
  | Gt => f + 1
  | Eq => if Z.even f then f else f + 1
  end.

(** A float to two decimal places, in hundredths. *)
Definition two_decimals (x : float) : option Z :=
  option_map (fun q => round_half_even (q * 100)) (exact_value x).

Definition field_two_decimals (k : string) (row : dict float) : option Z :=
  match get k row with
  | Some (VFloat x) => two_decimals x
  | _ => None
  end.

(** A text that the writer leaves unquoted. *)
Definition plain (s : string) : Prop := Csv.needs_quotes s = false.

Fixpoint has_newline (s : string) : bool :=
  match s with
  | EmptyString => false
  | String c s' => Reader.is_newline c || has_newline s'
  end.

(** The text of a file made of these lines. *)
Fixpoint lines_text (lines : list string) : string :=
  match lines with
  | [] => EmptyString
  | l :: ls => (l ++ lines_text ls)%string
  end.

(** The header record, without its terminator. *)
Definition header_row : string :=
  "Scenario,Budget,Days,Views,Clicks,Conversions,Revenue,Profit,ROI".

(** The values of a row, in the order of its keys, as the writer prints
    them. *)
Definition cells (row : dict float) : list string :=
  map (fun kv => Text.str_value (snd kv)) row.

(** [line] is the record of [row]: one physical line, the values of the
    row separated by commas, and the terminator. *)
Definition line_of (terminator : string) (row : dict float)
    (line : string) : Prop :=
  exists body,
    line = (body ++ terminator)%string /\
    body = String.concat "," (cells row) /\
    has_newline body = false.

(** The record that [save_to_csv] and [to_csv] write for a result row. *)
Definition record_of (terminator : string) (row : dict float) : string :=
  (String.concat "," (cells row) ++ terminator)%string.

(** A row with the nine fields of a result, in order. *)
Definition result_row (row : dict float) : Prop :=
  exists name budget days views clicks conversions revenue profit roi,
    row = [ ("Scenario", VStr name); ("Budget", VInt budget);
            ("Days", VInt days); ("Views", VFloat views);
            ("Clicks", VFloat clicks); ("Conversions", VFloat conversions);
            ("Revenue", VFloat revenue); ("Profit", VFloat profit);
            ("ROI", VFloat roi) ] /\
    plain name.

(** Every float of the row is read back from its text as the same float. *)
Definition floats_read_back (row : dict float) : Prop :=
  forall k x,
    In (k, VFloat x) row ->
    Text.float_of_str (Text.repr_float x) = Some x.

(** Two rows of the two variants for one scenario: every field but the ROI
    agrees, the ROI of the first is revenue over budget, the ROI of the
    second is profit over budget, and the two are different floats. *)
Definition differ_in_roi_only (r1 r2 : dict float) : Prop :=
  (forall k, k <> "ROI" -> get k r1 = get k r2) /\
  roi_revenue_over_budget r1 /\
  roi_profit_over_budget r2 /\
  exists x1 x2,
    get "ROI" r1 = Some (VFloat x1) /\ get "ROI" r2 = Some (VFloat x2) /\
    PrimFloat.eqb x1 x2 = false.

(** ** Format specifications: [str.format] as the console table uses it *)

Module Fmt.

Fixpoint spaces (n : nat) : string :=
  match n with
  | O => EmptyString
  | S n' => String " " (spaces n')
  end.

(** [format(s, "<w")] and [format(s, ">w")]: padding with spaces up to the
    width; a longer text is left as it is. *)
Definition ljust (width : nat) (s : string) : string :=
  (s ++ spaces (width - String.length s))%string.

Definition rjust (width : nat) (s : string) : string :=
  (spaces (width - String.length s) ++ s)%string.

(** The digits of [n] with at least [width] digits. *)
Definition zero_padded (width : nat) (n : Z) : string :=
  let s := Text.str_int n in
  (Text.zeros (width - String.length s) ++ s)%string.

(** The numeral of [q >= 0] with [prec] digits after the point, rounded to
    the nearest, ties to even. *)
Definition fixed_abs (prec : nat) (q : Q) : string :=
  let scale := 10 ^ Z.of_nat prec in
  let n := round_half_even (q * inject_Z scale) in
  match prec with
  | O => Text.str_int n
  | _ =>
      (Text.str_int (n / scale) ++ "." ++ zero_padded prec (n mod scale))
      %string
  end.

(** [format(x, ".{prec}f")] for a [float]: the decimal numeral nearest to
    the exact value of [x]. *)
Definition fixed (prec : nat) (x : float) : string :=
  match Prim2SF x with
  | S754_nan => "nan"
  | S754_infinity s => if s then "-inf" else "inf"
  | S754_zero s => ((if s then "-" else "") ++ fixed_abs prec 0)%string
  | S754_finite s m e =>
      ((if s then "-" else "")
       ++ fixed_abs prec (inject_Z (Zpos m) * Qpower 2 e))%string
  end.

End Fmt.

(** ** The console table and the effects of [main] *)

Module Console.

(** What [main] can raise beyond the exceptions of the computation: a key
    that a row does not have, and a file that cannot be opened. *)
Inductive error : Type :=
| KeyError (key : string)
| OSError
| Raised (e : exn).

(** [row[key]]. *)
Definition subscript (row : dict float) (key : string)
    : sum error (value float) :=
  match get key row with
  | Some v => ret v
  | None => raise (KeyError key)
  end.

(** [format(v, "<w")] and [format(v, ">w")]: the [str] of the value,
    padded. *)
Definition format_left (width : nat) (v : value float) : string :=
  Fmt.ljust width (Text.str_value v).

Definition format_right (width : nat) (v : value float) : string :=
  Fmt.rjust width (Text.str_value v).

(** [format(v, ">w.pf")]: an [int] is converted to a [float] first, a
    string has no such format. *)
Definition format_right_f (width prec : nat) (v : value float)
    : sum error string :=
  match v with
  | VStr _ => raise (Raised ValueError)
  | VInt z =>
      match as_float z with
      | inl e => raise (Raised e)
      | inr x => ret (Fmt.rjust width (Fmt.fixed prec x))
      end
  | VFloat x => ret (Fmt.rjust width (Fmt.fixed prec x))
  end.

(** The header line of the table. *)
Definition header : string :=
  (Fmt.ljust 10 "Scenario" ++ " " ++ Fmt.rjust 6 "Budget" ++ " "
   ++ Fmt.rjust 5 "Days" ++ " " ++ Fmt.rjust 10 "Views" ++ " "
   ++ Fmt.rjust 10 "Clicks" ++ " " ++ Fmt.rjust 12 "Conversions" ++ " "
   ++ Fmt.rjust 10 "Revenue" ++ " " ++ Fmt.rjust 10 "Profit" ++ " "
   ++ Fmt.rjust 6 "ROI")%string.

(** The line of a row: each field is looked up and formatted in turn, from
    left to right. *)
Definition format_row (row : dict float) : sum error string :=
  scenario <- subscript row "Scenario" ;;
  let c1 := format_left 10 scenario in
  budget <- subscript row "Budget" ;;
  c2 <- format_right_f 6 0 budget ;;
  days <- subscript row "Days" ;;
  let c3 := format_right 5 days in
  views <- subscript row "Views" ;;
  c4 <- format_right_f 10 1 views ;;
  clicks <- subscript row "Clicks" ;;
  c5 <- format_right_f 10 1 clicks ;;
  conversions <- subscript row "Conversions" ;;
  c6 <- format_right_f 12 1 conversions ;;
  revenue <- subscript row "Revenue" ;;
  c7 <- format_right_f 10 1 revenue ;;
  profit <- subscript row "Profit" ;;
  c8 <- format_right_f 10 1 profit ;;
  roi <- subscript row "ROI" ;;
  c9 <- format_right_f 6 2 roi ;;
  ret (c1 ++ " " ++ c2 ++ " " ++ c3 ++ " " ++ c4 ++ " " ++ c5 ++ " "
       ++ c6 ++ " " ++ c7 ++ " " ++ c8 ++ " " ++ c9 ++ "x")%string.

(** What the program can change: the text on the standard output and the
    content of files; [denied] are the paths that cannot be opened for
    writing. *)
Record world : Type := {
  stdout : string;
  files : list (string * string);
  denied : list string
}.


(** [print(line)]. *)
Definition print (line : string) (w : world) : world :=
  {| stdout := (stdout w ++ line ++ String Csv.LF "")%string;
     files := files w; denied := denied w |}.

(** The file at [path] holds [content], whatever it held before. *)
Definition write_file (path content : string) (w : world) : world :=
  {| stdout := stdout w;
     files := (path, content)
              :: filter (fun f => negb (String.eqb path (fst f))) (files w);
     denied := denied w |}.

(** The loop of [save_to_csv] on the open file: a row that is refused
    raises after the rows before it have been written. *)
Fixpoint write_rows (path : string) (rows : list (dict float))
    (content : string) (w : world) : world * sum error unit :=
  match rows with
  | [] => (w, inr tt)
  | row :: rest =>
      match Csv.dictwriter_writerow Simulate.fieldnames row with
      | inl e => (w, inl (Raised e))
      | inr line =>
          let content' := (content ++ line)%string in
          write_rows path rest content' (write_file path content' w)
      end
  end.

(** [save_to_csv(results, output_path)] with its effect: the file is
    created, or emptied, when it is opened, then the header and the rows
    are written to it; leaving the [with] block closes the file, also when
    a row raises. *)
Definition save_to_csv (results : list (dict float)) (output_path : string)
    (w : world) : world * sum error unit :=
  if existsb (String.eqb output_path) (denied w) then (w, inl OSError)
  else
    let content := Csv.writeheader Simulate.fieldnames in
    write_rows output_path results content
      (write_file output_path content w).

(** The loop that prints the rows of the table. *)
Fixpoint print_rows (results : list (dict float)) (w : world)
    : world * sum error unit :=
  match results with
  | [] => (w, inr tt)
  | row :: rest =>
      match format_row row with
      | inl e => (w, inl e)
      | inr line => print_rows rest (print line w)
      end
  end.

(** [main()] for parsed arguments [a]: the results are computed first;
    then either the file is written and a line reports it, or the table is
    printed. *)
Definition main (a : Simulate.args) (w : world) : world * sum error unit :=
  match Simulate.main_results a with
  | inl e => (w, inl (Raised e))
  | inr results =>
      match Simulate.output a with
      | Some (String _ _ as path) =>
          match save_to_csv results path w with
          | (w', inl e) => (w', inl e)
          | (w', inr _) => (print ("Results saved to " ++ path)%string w',
                            inr tt)
          end
      | _ => print_rows results (print header w)
      end
  end.

End Console.

(** ** Vocabulary of the further properties *)



(** The value at [key] can be printed in a numeric column. *)
Definition numeric_at (key : string) (row : dict float) : Prop :=
  exists v,
    get key row = Some v /\
    match v with
    | VStr _ => False
    | VInt z => exists x : float, of_int z = Some x
    | VFloat _ => True
    end.

(** The row has what the console table asks of it: the nine keys, and
    numbers in the numeric columns. *)
Definition printable (row : dict float) : Prop :=
  (exists v, get "Scenario" row = Some v) /\
  numeric_at "Budget" row /\
  (exists v, get "Days" row = Some v) /\
  numeric_at "Views" row /\
  numeric_at "Clicks" row /\
  numeric_at "Conversions" row /\
  numeric_at "Revenue" row /\
  numeric_at "Profit" row /\
  numeric_at "ROI" row.


(** * Properties *)

(** ** The loop and the conversions *)

Section Loop.
Context {F : Type} {PF : PyFloat F} {A : Type}.
Variable body : A -> py (dict F).

Lemma for_append_inr (items : list A) :
  forall acc rows,
    for_append body items acc = inr rows ->
    exists new,
      rows = acc ++ new /\ Forall2 (fun i r => body i = inr r) items new.
Proof.
  induction items as [|i items IH]; intros acc rows H; simpl in H.
  - exists []. inversion H. rewrite app_nil_r. auto.
  - destruct (body i) as [e|r] eqn:Hi; simpl in H; [discriminate|].
    destruct (IH _ _ H) as (new & -> & Hnew).
    exists (r :: new). rewrite <- app_assoc. simpl. auto.
Qed.

Lemma for_append_inl (items : list A) :
  forall acc e,
    for_append body items acc = inl e ->
    Exists (fun i => body i = inl e) items.
Proof.
  induction items as [|i items IH]; intros acc e H; simpl in H.
  - discriminate.
  - destruct (body i) as [e'|r] eqn:Hi; simpl in H.
    + inversion H; subst. now constructor.
    + constructor 2. eauto.
Qed.

Lemma for_append_all (items : list A) :
  forall acc new,
    Forall2 (fun i r => body i = inr r) items new ->
    for_append body items acc = inr (acc ++ new).
Proof.
  induction items as [|i items IH]; intros acc new H; inversion H; subst.
  - simpl. now rewrite app_nil_r.
  - simpl. rewrite H2. simpl. rewrite (IH _ _ H4), <- app_assoc.
    reflexivity.
Qed.
End Loop.

(** The budgets of the scenario tables convert to floats exactly. *)
Lemma as_float_table :
  as_float 0 = inr 0%float /\ as_float 50 = inr 50%float /\
  as_float 100 = inr 100%float /\ as_float 200 = inr 200%float /\
  as_float 400 = inr 400%float /\ as_float 500 = inr 500%float.
Proof. vm_compute. repeat split. Qed.

(** ** The funnel equations (both variants) *)

Section Funnel.
Context {F : Type} {PF : PyFloat F}.

Lemma scenario_row_funnel (rps pps : F) (s : Simulate.scenario F)
    (row : dict F) :
  Simulate.scenario_row rps pps s = inr row -> funnel_v1 rps pps s row.
Proof.
  destruct s as [[[[[name budget] days] cpv] ctr] conv].
  unfold Simulate.scenario_row, int_truediv, truediv_int, as_float, truediv.
  destruct (of_int budget) as [b|] eqn:Hb; simpl; [|discriminate].
  destruct (is_zero cpv); simpl; [discriminate|].
  destruct (budget =? 0); simpl;
    [|destruct (is_zero b); simpl; [discriminate|]];
    intros H; inversion H; subst; clear H;
    exists b; repeat eexists; first [exact Hb | reflexivity].
Qed.

Lemma scenario_row_of (rps pps : F) (s : Simulate.scenario F)
    (row : dict F) :
  Simulate.scenario_row rps pps s = inr row -> row_of rps pps s row.
Proof.
  intros H. pose proof (scenario_row_funnel _ _ _ _ H) as Hf.
  destruct s as [[[[[name budget] days] cpv] ctr] conv].
  unfold Simulate.scenario_row in H.
  destruct (int_truediv budget cpv) as [|views]; simpl in H; [discriminate|].
  destruct (if negb (budget =? 0) then _ else _) as [|roi]; simpl in H;
    [discriminate|].
  inversion H; subst; clear H.
  repeat split; assumption.
Qed.

Lemma simulation_row_funnel (s : Simulation.scenario F) (row : dict F) :
  Simulation.simulation_row s = inr row -> funnel_v2 s row.
Proof.
  destruct s as [name budget days cpv ctr conv rps pps].
  unfold Simulation.simulation_row, int_truediv, truediv_int, mul_int,
    as_float, truediv, funnel_v2; simpl.
  destruct (of_int budget) as [b|] eqn:Hb; simpl; [|discriminate].
  destruct (is_zero cpv); simpl; [discriminate|].
  destruct (of_int rps) as [r|] eqn:Hr; simpl; [|discriminate].
  destruct (of_int pps) as [p|] eqn:Hp; simpl; [|discriminate].
  destruct (is_zero b); simpl; [discriminate|].
  intros H; inversion H; subst; clear H.
  exists r, p. repeat split.
  exists b. repeat eexists; first [eassumption | reflexivity].
Qed.
Lemma simulation_row_of (s : Simulation.scenario F) (row : dict F) :
  Simulation.simulation_row s = inr row ->
  exists rps pps,
    of_int (Simulation.RevenuePerSale s) = Some rps /\
    of_int (Simulation.ProfitPerSale s) = Some pps /\
    row_of rps pps
      (Simulation.Scenario s, Simulation.Budget s, Simulation.Days s,
       Simulation.CPV s, Simulation.CTR s, Simulation.ConvRate s) row.
Proof.
  intros H. destruct (simulation_row_funnel _ _ H) as (rps & pps & Hr & Hp & Hf).
  exists rps, pps. repeat split; try assumption;
    unfold Simulation.simulation_row in H;
    destruct (int_truediv _ _) as [|views]; simpl in H; try discriminate;
    destruct (mul_int _ (Simulation.RevenuePerSale s)) as [|revenue];
    simpl in H; try discriminate;
    destruct (mul_int _ (Simulation.ProfitPerSale s)) as [|profit];
    simpl in H; try discriminate;
    destruct (truediv_int _ _) as [|roi]; simpl in H; try discriminate;
    inversion H; reflexivity.
Qed.

End Funnel.

Lemma of_int_per_sale :
  of_int 100 = Some 100%float /\ of_int 50 = Some 50%float.
Proof. vm_compute. split; reflexivity. Qed.

(** In binary64, a scenario of [run_scenarios] raises only through a zero
    cost per view, and only [ZeroDivisionError]. *)
Lemma scenario_row_raises (rps pps : float) (name : string) (budget days : Z)
    (cpv ctr conv : float) (e : exn) :
  In budget [100; 200; 500; 400] ->
  Simulate.scenario_row rps pps (name, budget, days, cpv, ctr, conv) = inl e ->
  e = ZeroDivisionError /\ is_zero cpv = true.
Proof.
  destruct as_float_table as (_ & _ & H1 & H2 & H4 & H5).
  intros Hin.
  assert (Hb : exists b : float, as_float budget = inr b /\ is_zero b = false
                         /\ (budget =? 0) = false).
  { simpl in Hin.
    destruct Hin as [<-|[<-|[<-|[<-|[]]]]]; eexists; (split; [eassumption|]);
      split; reflexivity. }
  destruct Hb as (b & Hb & Hz & Hn).
  unfold Simulate.scenario_row, int_truediv, truediv_int.
  rewrite Hb, Hn. simpl. unfold truediv.
  destruct (is_zero cpv) eqn:Hc; simpl.
  - intros H; inversion H; auto.
  - simpl in Hz. rewrite Hz. discriminate.
Qed.

(** In binary64, [run_scenarios] returns the rows of its four scenarios, or
    raises [ZeroDivisionError] because a cost per view is zero. *)
Lemma run_scenarios_cases (cs cl ts tl vs vl rps pps : float) :
  match Simulate.run_scenarios cs cl ts tl vs vl rps pps with
  | inr rows =>
      Forall2 (fun s row => Simulate.scenario_row rps pps s = inr row)
        (Simulate.scenarios cs cl ts tl vs vl) rows
  | inl e => e = ZeroDivisionError /\ (is_zero cs = true \/ is_zero cl = true)
  end.
Proof.
  unfold Simulate.run_scenarios.
  destruct (for_append _ _ _) as [e|rows] eqn:H.
  - apply for_append_inl in H. unfold Simulate.scenarios in H.
    repeat match goal with
    | H : Exists _ (_ :: _) |- _ => inversion H; subst; clear H
    | H : Exists _ [] |- _ => inversion H
    | H : Simulate.scenario_row _ _ _ = inl _ |- _ =>
        apply scenario_row_raises in H; [|simpl; tauto]
    end; intuition.
  - apply for_append_inr in H. destruct H as (new & -> & H). exact H.
Qed.

(** [run_simulation] returns the rows of its four scenarios. *)
Lemma run_simulation_rows :
  exists rows,
    Simulation.rows = inr rows /\
    Forall2 (fun s row => Simulation.simulation_row s = inr row)
      Simulation.scenarios rows.
Proof.
  destruct (Simulation.rows) as [e|rows] eqn:H.
  - vm_compute in H. discriminate.
  - exists rows. split; [reflexivity|].
    apply for_append_inr in H. destruct H as (new & -> & H). exact H.
Qed.

(** C1. For every scenario that either variant processes, the funnel
    equations hold in the float arithmetic of the code:
    views = budget / cpv, clicks = views * ctr,
    conversions = clicks * conversion rate,
    revenue = conversions * revenue per sale and
    profit = conversions * profit per sale, each side being the same
    binary64 value.  Variant 1 returns such rows for all parameters unless
    a cost per view is zero, in which case it raises [ZeroDivisionError];
    variant 2 always returns them. *)
Theorem funnel_equations_hold :
  (forall cs cl ts tl vs vl rps pps : float,
     match Simulate.run_scenarios cs cl ts tl vs vl rps pps with
     | inr rows =>
         Forall2 (funnel_v1 rps pps) (Simulate.scenarios cs cl ts tl vs vl)
           rows
     | inl e =>
         e = ZeroDivisionError /\ (is_zero cs = true \/ is_zero cl = true)
     end) /\
  (exists rows,
     Simulation.rows = inr rows /\
     Forall2 funnel_v2 Simulation.scenarios rows).
Proof.
  split.
  - intros.
    pose proof (run_scenarios_cases cs cl ts tl vs vl rps pps) as H.
    destruct (Simulate.run_scenarios _ _ _ _ _ _ _ _) as [e|rows];
      [exact H|].
    eapply Forall2_impl; [|exact H].
    intros s row. apply scenario_row_funnel.
  - destruct run_simulation_rows as (rows & Hr & H).
    exists rows. split; [exact Hr|].
    eapply Forall2_impl; [|exact H].
    intros s row. apply simulation_row_funnel.
Qed.

(** The same value on both sides is what Python's [==] tests, except for a
    NaN, which [==] tells apart from itself. *)
Remark python_eq_of_identity (x y : float) :
  x = y -> PrimFloat.is_nan y = false -> PrimFloat.eqb x y = true.
Proof.
  intros -> H. unfold PrimFloat.is_nan in H.
  now apply negb_false_iff in H.
Qed.

(** A NaN does arise from positive rates: a cost per view so small that the
    views overflow to infinity, and a click-through rate of zero. *)
Example nan_clicks :
  exists row rest,
    Simulate.run_scenarios 1e-320%float 0.05%float 0%float 0.06%float
      0.04%float 0.05%float 100%float 50%float = inr (row :: rest) /\
    get "Views" row = Some (VFloat infinity) /\
    get "Clicks" row = Some (VFloat nan).
Proof. do 2 eexists. split; [vm_compute; reflexivity|]. split; reflexivity. Qed.

(** ** Return on investment in variant 1 *)

Section Roi.
Context {F : Type} {PF : PyFloat F}.

Lemma scenario_row_roi (rps pps : F) (name : string) (budget days : Z)
    (cpv ctr conv : F) (row : dict F) :
  budget <> 0 ->
  Simulate.scenario_row rps pps (name, budget, days, cpv, ctr, conv)
    = inr row ->
  roi_revenue_over_budget row.
Proof.
  intros Hn. apply Z.eqb_neq in Hn.
  unfold Simulate.scenario_row, int_truediv, truediv_int, as_float, truediv.
  rewrite Hn.
  destruct (of_int budget) as [b|] eqn:Hb; simpl; [|discriminate].
  destruct (is_zero cpv); simpl; [discriminate|].
  destruct (is_zero b); simpl; [discriminate|].
  intros H; inversion H; subst; clear H.
  exists budget, b. eexists. repeat split; first [exact Hb | reflexivity].
Qed.

Lemma simulation_row_roi (s : Simulation.scenario F) (row : dict F) :
  Simulation.simulation_row s = inr row -> roi_profit_over_budget row.
Proof.
  destruct s as [name budget days cpv ctr conv rps pps].
  unfold Simulation.simulation_row, int_truediv, truediv_int, mul_int,
    as_float, truediv; simpl.
  destruct (of_int budget) as [b|] eqn:Hb; simpl; [|discriminate].
  destruct (is_zero cpv); simpl; [discriminate|].
  destruct (of_int rps) as [r|]; simpl; [|discriminate].
  destruct (of_int pps) as [p|]; simpl; [|discriminate].
  destruct (is_zero b); simpl; [discriminate|].
  intros H; inversion H; subst; clear H.
  exists budget, b. eexists. repeat split; first [exact Hb | reflexivity].
Qed.
End Roi.

(** The default run of variant 1 returns four rows. *)
Lemma default_run :
  exists r0 r1 r2 r3,
    Simulate.main_results Simulate.default_args = inr [r0; r1; r2; r3].
Proof.
  destruct (Simulate.main_results Simulate.default_args) as [e|rows] eqn:H.
  - vm_compute in H. discriminate.
  - unfold Simulate.main_results, Simulate.run_scenarios in H.
    destruct (for_append_inr _ _ _ _ H) as (new & -> & Hnew).
    unfold Simulate.scenarios in Hnew.
    repeat match goal with
    | H : Forall2 _ _ _ |- _ => inversion H; subst; clear H
    end.
    simpl. eauto.
Qed.

(** C2. With the default parameters, [run_scenarios] returns four rows,
    Small, Baseline, Large and Long, and in each of them the ROI field is
    the revenue divided by the budget. *)
Theorem default_roi_is_revenue_over_budget :
  exists rows,
    Simulate.main_results Simulate.default_args = inr rows /\
    map (get "Scenario") rows
      = [Some (VStr "Small"); Some (VStr "Baseline");
         Some (VStr "Large"); Some (VStr "Long")] /\
    Forall roi_revenue_over_budget rows.
Proof.
  destruct (Simulate.main_results Simulate.default_args) as [e|rows] eqn:H.
  - vm_compute in H. discriminate.
  - exists rows. split; [reflexivity|]. split.
    + vm_compute in H. inversion H. reflexivity.
    + unfold Simulate.main_results, Simulate.run_scenarios in H.
      destruct (for_append_inr _ _ _ _ H) as (new & -> & Hnew). simpl.
      unfold Simulate.scenarios in Hnew.
      repeat match goal with
      | H : Forall2 _ (_ :: _) _ |- _ => inversion H; subst; clear H
      | H : Forall2 _ [] _ |- _ => inversion H; subst; clear H
      | H : Simulate.scenario_row _ _ _ = inr _ |- _ =>
          apply scenario_row_roi in H; [|discriminate]
      end.
      repeat constructor; assumption.
Qed.


(** ** Division by zero in variant 1 *)

(** Only the division by the budget is guarded: with a cost per view of
    zero the first division of the loop body raises, whether the budget is
    zero or not, and so does [run_scenarios]. *)
Lemma zero_cpv_raises :
  Simulate.scenario_row 100%float 50%float
    ("Zero", 0, 5, 0%float, 0.05%float, 0.04%float)
    = inl ZeroDivisionError /\
  Simulate.run_scenarios 0%float 0.05%float 0.05%float 0.06%float
      0.04%float 0.05%float 100%float 50%float
    = inl ZeroDivisionError.
Proof. split; vm_compute; reflexivity. Qed.

(** C4, amended. A scenario with a zero budget and a cost per view that is
    not zero does not raise, and its ROI is [0.0]. *)
Theorem zero_budget_roi (rps pps : float) (name : string) (days : Z)
    (cpv ctr conv : float) :
  is_zero cpv = false ->
  exists row,
    Simulate.scenario_row rps pps (name, 0, days, cpv, ctr, conv) = inr row /\
    get "ROI" row = Some (VFloat 0%float).
Proof.
  intros Hc.
  destruct as_float_table as (H0 & _).
  unfold Simulate.scenario_row, int_truediv.
  rewrite H0. simpl. unfold truediv. rewrite Hc. simpl.
  eexists. split; reflexivity.
Qed.

Lemma zero_budget_roi_witness :
  is_zero 0.06%float = false /\
  exists row,
    Simulate.scenario_row 100%float 50%float
      ("Zero", 0, 5, 0.06%float, 0.05%float, 0.04%float) = inr row /\
    get "ROI" row = Some (VFloat 0%float).
Proof.
  split; [reflexivity|].
  apply (zero_budget_roi 100 50 "Zero" 5 0.06 0.05 0.04). reflexivity.
Defined.

(** ** The scenario tables *)

(** C6. For all parameter values the table of variant 1 has exactly the
    four scenarios Small (100, 5 days), Baseline (200, 10 days),
    Large (500, 30 days) and Long (400, 60 days), in this order, the first
    two with the small-tier rates and the last two with the large-tier
    rates; [run_scenarios] returns one row for each of them, in this order,
    or raises because a cost per view is zero.  The table of variant 2 has
    the same four scenarios with its fixed small-tier and large-tier rates,
    and [run_simulation] has one row for each of them, in this order. *)
Theorem four_scenarios_in_order :
  (forall cs cl ts tl vs vl rps pps : float,
     let table :=
       [ ("Small", 100, 5, cs, ts, vs); ("Baseline", 200, 10, cs, ts, vs);
         ("Large", 500, 30, cl, tl, vl); ("Long", 400, 60, cl, tl, vl) ] in
     Simulate.scenarios cs cl ts tl vs vl = table /\
     match Simulate.run_scenarios cs cl ts tl vs vl rps pps with
     | inr rows => Forall2 (row_of rps pps) table rows
     | inl _ => is_zero cs = true \/ is_zero cl = true
     end) /\
  (let table :=
     [ ("Small", 100, 5, 0.06%float, 0.05%float, 0.04%float);
       ("Baseline", 200, 10, 0.06%float, 0.05%float, 0.04%float);
       ("Large", 500, 30, 0.05%float, 0.06%float, 0.05%float);
       ("Long", 400, 60, 0.05%float, 0.06%float, 0.05%float) ] in
   map (fun s =>
          (Simulation.Scenario s, Simulation.Budget s, Simulation.Days s,
           Simulation.CPV s, Simulation.CTR s, Simulation.ConvRate s))
     Simulation.scenarios = table /\
   exists rows,
     Simulation.rows = inr rows /\
     Forall2 (row_of 100%float 50%float) table rows).
Proof.
  split; [|split; [reflexivity|]].
  - intros. split; [reflexivity|].
    pose proof (run_scenarios_cases cs cl ts tl vs vl rps pps) as H.
    destruct (Simulate.run_scenarios _ _ _ _ _ _ _ _) as [e|rows];
      [tauto|].
    eapply Forall2_impl; [|exact H].
    intros s row. apply scenario_row_of.
  - destruct run_simulation_rows as (rows & Hr & H).
    exists rows. split; [exact Hr|].
    unfold Simulation.scenarios in H.
    repeat match goal with
    | H : Forall2 _ (_ :: _) _ |- _ => inversion H; subst; clear H
    | H : Forall2 _ [] _ |- _ => inversion H; subst; clear H
    | H : Simulation.simulation_row _ = inr _ |- _ =>
        apply simulation_row_of in H;
        cbn [Simulation.Scenario Simulation.Budget Simulation.Days
             Simulation.CPV Simulation.CTR Simulation.ConvRate
             Simulation.RevenuePerSale Simulation.ProfitPerSale] in H;
        destruct H as (? & ? & Hr1 & Hr2 & H);
        rewrite (proj1 of_int_per_sale) in Hr1;
        rewrite (proj2 of_int_per_sale) in Hr2;
        inversion Hr1; inversion Hr2; subst; clear Hr1 Hr2
    end.
    repeat (apply Forall2_cons; [assumption|]). apply Forall2_nil.
Qed.


(** ** The duration of a scenario *)

(** C10. The days of a scenario have no influence on its metrics: in both
    variants two scenarios that differ only in their days have the same
    outcome, the same exception or the same views, clicks, conversions,
    revenue, profit and ROI. *)
Theorem days_do_not_matter :
  (forall (rps pps : float) name budget d1 d2 cpv ctr conv,
     metrics_of
       (Simulate.scenario_row rps pps (name, budget, d1, cpv, ctr, conv))
     = metrics_of
       (Simulate.scenario_row rps pps (name, budget, d2, cpv, ctr, conv))) /\
  (forall name budget d1 d2 (cpv ctr conv : float) rps pps,
     metrics_of
       (Simulation.simulation_row
          {| Simulation.Scenario := name; Simulation.Budget := budget;
             Simulation.Days := d1; Simulation.CPV := cpv;
             Simulation.CTR := ctr; Simulation.ConvRate := conv;
             Simulation.RevenuePerSale := rps;
             Simulation.ProfitPerSale := pps |})
     = metrics_of
       (Simulation.simulation_row
          {| Simulation.Scenario := name; Simulation.Budget := budget;
             Simulation.Days := d2; Simulation.CPV := cpv;
             Simulation.CTR := ctr; Simulation.ConvRate := conv;
             Simulation.RevenuePerSale := rps;
             Simulation.ProfitPerSale := pps |})).
Proof.
  split; intros.
  - unfold Simulate.scenario_row.
    destruct (int_truediv budget cpv) as [e|views]; [reflexivity|].
    cbn [bind Monad_either].
    destruct (if negb (budget =? 0) then _ else _) as [e|roi]; reflexivity.
  - unfold Simulation.simulation_row.
    cbn [Simulation.Scenario Simulation.Budget Simulation.Days Simulation.CPV
         Simulation.CTR Simulation.ConvRate Simulation.RevenuePerSale
         Simulation.ProfitPerSale].
    destruct (int_truediv budget cpv) as [e|views]; [reflexivity|].
    cbn [bind Monad_either].
    destruct (mul_int _ rps) as [e|revenue]; [reflexivity|].
    cbn [bind Monad_either].
    destruct (mul_int _ pps) as [e|profit]; [reflexivity|].
    cbn [bind Monad_either].
    destruct (truediv_int _ _) as [e|roi]; reflexivity.
Qed.


(** ** The two definitions of the return on investment *)

Lemma differ_in_roi_only_intro (r1 r2 : dict float) (x1 x2 : float) :
  roi_revenue_over_budget r1 ->
  roi_profit_over_budget r2 ->
  (exists a b c d e f g h,
     r1 = [("Scenario", a); ("Budget", b); ("Days", c); ("Views", d);
           ("Clicks", e); ("Conversions", f); ("Revenue", g);
           ("Profit", h); ("ROI", VFloat x1)] /\
     r2 = [("Scenario", a); ("Budget", b); ("Days", c); ("Views", d);
           ("Clicks", e); ("Conversions", f); ("Revenue", g);
           ("Profit", h); ("ROI", VFloat x2)]) ->
  PrimFloat.eqb x1 x2 = false ->
  differ_in_roi_only r1 r2.
Proof.
  intros H1 H2 (a & b & c & d & e & f & g & h & -> & ->) Hx.
  repeat split; try assumption.
  - intros k Hk. apply String.eqb_neq in Hk. cbn [get].
    rewrite Hk.
    repeat match goal with
    | |- context [String.eqb k ?s] => destruct (String.eqb k s)
    end; reflexivity.
  - exists x1, x2. repeat split. exact Hx.
Qed.

(** C3. The two variants compute the ROI differently.  On each of the four
    default scenarios, which are the scenarios of variant 2, every field of
    the two rows agrees except the ROI, which is revenue / budget in
    variant 1 and profit / budget in variant 2, and the two ROI values are
    unequal. *)
Theorem variants_disagree_on_roi :
  exists r0 r1 r2 r3 t0 t1 t2 t3,
    Simulate.main_results Simulate.default_args = inr [r0; r1; r2; r3] /\
    Simulation.rows = inr [t0; t1; t2; t3] /\
    differ_in_roi_only r0 t0 /\ differ_in_roi_only r1 t1 /\
    differ_in_roi_only r2 t2 /\ differ_in_roi_only r3 t3.
Proof.
  destruct default_run as (r0 & r1 & r2 & r3 & H1).
  destruct run_simulation_rows as (rows & H2 & Hs).
  unfold Simulation.scenarios in Hs.
  repeat match goal with
  | H : Forall2 _ (_ :: _) _ |- _ => inversion H; subst; clear H
  | H : Forall2 _ [] _ |- _ => inversion H; subst; clear H
  end.
  exists r0, r1, r2, r3. do 4 eexists.
  split; [exact H1|]. split; [exact H2|].
  assert (Hv1 : Forall roi_revenue_over_budget [r0; r1; r2; r3]).
  { unfold Simulate.main_results, Simulate.run_scenarios in H1.
    destruct (for_append_inr _ _ _ _ H1) as (new & E & Hnew).
    simpl in E. subst new. unfold Simulate.scenarios in Hnew.
    repeat match goal with
    | H : Forall2 _ (_ :: _) _ |- _ => inversion H; subst; clear H
    | H : Forall2 _ [] _ |- _ => inversion H; subst; clear H
    | H : Simulate.scenario_row _ _ _ = inr _ |- _ =>
        apply scenario_row_roi in H; [|discriminate]
    end.
    repeat (apply Forall_cons; [assumption|]). apply Forall_nil. }
  repeat match goal with
  | H : Simulation.simulation_row _ = inr _ |- _ =>
      apply simulation_row_roi in H
  | H : Forall _ (_ :: _) |- _ => inversion H; subst; clear H
  end.
  vm_compute in H1, H2.
  inversion H1; inversion H2; subst.
  split; [|split; [|split]];
    (eapply differ_in_roi_only_intro;
      [assumption | assumption | do 8 eexists; split; reflexivity
      | reflexivity]).
Qed.

(** ** The default run of variant 1 *)

(** C5. With the default parameters the Small scenario (budget 100) has, to
    two decimal places, 1666.67 views, 83.33 clicks, 3.33 conversions,
    a revenue of 333.33 and an ROI of 3.33. *)
Theorem default_small_metrics :
  exists row rest,
    Simulate.main_results Simulate.default_args = inr (row :: rest) /\
    get "Scenario" row = Some (VStr "Small") /\
    get "Budget" row = Some (VInt 100) /\
    field_two_decimals "Views" row = Some 166667 /\
    field_two_decimals "Clicks" row = Some 8333 /\
    field_two_decimals "Conversions" row = Some 333 /\
    field_two_decimals "Revenue" row = Some 33333 /\
    field_two_decimals "ROI" row = Some 333.
Proof.
  destruct default_run as (r0 & r1 & r2 & r3 & H).
  exists r0, [r1; r2; r3]. split; [exact H|].
  vm_compute in H. inversion H; subst.
  repeat split; vm_compute; reflexivity.
Qed.


(** ** The ROI and the budget *)

Lemma Qc_is_zero_false (x : Qc) : x <> Q2Qc 0 -> is_zero x = false.
Proof.
  intros H. cbn [is_zero exact].
  destruct (Qc_eq_bool x (Q2Qc 0)) eqn:E; [|reflexivity].
  apply Qc_eq_bool_correct in E. contradiction.
Qed.

Lemma Qc_of_Z_nonzero (z : Z) : z <> 0 -> Q2Qc (inject_Z z) <> Q2Qc 0.
Proof.
  intros Hz H. apply Q2Qc_eq_iff in H.
  unfold Qeq in H. simpl in H. lia.
Qed.

(** In exact arithmetic the ROI of variant 1 is a function of the rates and
    the revenue per sale alone. *)
Lemma exact_roi (rps pps : Qc) (name : string) (budget days : Z)
    (cpv ctr conv : Qc) :
  budget <> 0 -> cpv <> Q2Qc 0 ->
  exists row,
    Simulate.scenario_row rps pps (name, budget, days, cpv, ctr, conv)
      = inr row /\
    get "ROI" row = Some (VFloat (ctr * conv * rps / cpv)%Qc).
Proof.
  intros Hb Hc.
  pose proof (Qc_is_zero_false _ Hc) as Hc'.
  pose proof (Qc_is_zero_false _ (Qc_of_Z_nonzero _ Hb)) as Hb'.
  apply Z.eqb_neq in Hb.
  unfold Simulate.scenario_row, int_truediv, truediv_int, as_float, truediv.
  cbn [of_int exact bind ret Monad_either].
  rewrite Hc', Hb, Hb'. cbn [negb bind ret Monad_either].
  eexists. split; [reflexivity|].
  cbn [get String.eqb Ascii.eqb Bool.eqb fmul fdiv exact].
  do 2 f_equal. field.
  split; [exact Hc | apply Qc_of_Z_nonzero, Z.eqb_neq, Hb].
Qed.

(** In binary64 the ROI is not the closed formula, and it is not independent
    of the budget: with the default parameters the ROI of Small is not
    [(ctr * conv * revenue_per_sale) / cpv], and with the large-tier rates
    0.03, 0.05 and 0.03 the ROI of Large and of Long differ. *)
Lemma roi_depends_on_rounding :
  (exists row rest x,
     Simulate.main_results Simulate.default_args = inr (row :: rest) /\
     get "ROI" row = Some (VFloat x) /\
     PrimFloat.eqb x
       (Simulate.ctr_small Simulate.default_args
        * Simulate.conv_small Simulate.default_args
        * Simulate.revenue_per_sale Simulate.default_args
        / Simulate.cpv_small Simulate.default_args)%float = false) /\
  (exists r0 r1 r2 r3 x2 x3,
     Simulate.run_scenarios 0.06%float 0.03%float 0.05%float 0.05%float
       0.04%float 0.03%float 100%float 50%float = inr [r0; r1; r2; r3] /\
     get "ROI" r2 = Some (VFloat x2) /\
     get "ROI" r3 = Some (VFloat x3) /\
     PrimFloat.eqb x2 x3 = false).
Proof.
  split.
  - do 3 eexists. split; [vm_compute; reflexivity|].
    split; [reflexivity|]. vm_compute. reflexivity.
  - do 6 eexists. split; [vm_compute; reflexivity|].
    split; [reflexivity|]. split; [reflexivity|]. vm_compute. reflexivity.
Qed.

(** C9, amended. In exact arithmetic, for any scenario of variant 1 with a
    budget and a cost per view that are not zero, the ROI is
    [(ctr * conv * revenue_per_sale) / cpv], whatever the budget.  In the
    binary64 arithmetic of the code this holds up to rounding only; with the
    default parameters Small and Baseline have the same ROI, and so have
    Large and Long. *)
Theorem roi_independent_of_budget :
  (forall (rps pps : Qc) (name : string) (budget days : Z)
          (cpv ctr conv : Qc),
     budget <> 0 -> cpv <> Q2Qc 0 ->
     exists row,
       Simulate.scenario_row rps pps (name, budget, days, cpv, ctr, conv)
         = inr row /\
       get "ROI" row = Some (VFloat (ctr * conv * rps / cpv)%Qc)) /\
  (exists r0 r1 r2 r3,
     Simulate.main_results Simulate.default_args = inr [r0; r1; r2; r3] /\
     get "ROI" r0 = get "ROI" r1 /\
     get "ROI" r2 = get "ROI" r3).
Proof.
  split.
  - apply exact_roi.
  - destruct default_run as (r0 & r1 & r2 & r3 & H).
    exists r0, r1, r2, r3. split; [exact H|].
    vm_compute in H. inversion H; subst. split; reflexivity.
Qed.

Lemma roi_independent_of_budget_witness :
  100 <> 0 /\ Q2Qc (6 # 100) <> Q2Qc 0 /\
  exists row,
    Simulate.scenario_row (Q2Qc 100) (Q2Qc 50)
      ("Small", 100, 5, Q2Qc (6 # 100), Q2Qc (5 # 100), Q2Qc (4 # 100))
      = inr row /\
    get "ROI" row
      = Some (VFloat (Q2Qc (5 # 100) * Q2Qc (4 # 100) * Q2Qc 100
                      / Q2Qc (6 # 100))%Qc).
Proof.
  assert (H6 : Q2Qc (6 # 100) <> Q2Qc 0).
  { intros H. apply Q2Qc_eq_iff in H. discriminate H. }
  split; [discriminate|]. split; [exact H6|].
  apply (proj1 roi_independent_of_budget); [discriminate | exact H6].
Defined.


(** ** Numbers as text need no quotes *)

Create HintDb plain.

Lemma needs_quotes_app (a b : string) :
  Csv.needs_quotes (a ++ b)%string
  = Csv.needs_quotes a || Csv.needs_quotes b.
Proof.
  induction a as [|c a IH]; simpl; [reflexivity|].
  rewrite IH. apply orb_assoc.
Qed.

Lemma plain_app (a b : string) : plain a -> plain b -> plain (a ++ b)%string.
Proof.
  unfold plain. intros Ha Hb. rewrite needs_quotes_app, Ha, Hb. reflexivity.
Qed.

Lemma plain_String (c : ascii) (s : string) :
  Csv.special c = false -> plain s -> plain (String c s).
Proof. unfold plain. simpl. intros -> ->. reflexivity. Qed.

Lemma plain_inv (c : ascii) (s : string) :
  plain (String c s) -> Csv.special c = false /\ plain s.
Proof. unfold plain. simpl. apply orb_false_elim. Qed.

Lemma plain_empty : plain "".
Proof. reflexivity. Qed.

#[local] Hint Resolve plain_app plain_String plain_empty : plain.

Lemma plain_uint (d : Decimal.uint) : plain (NilEmpty.string_of_uint d).
Proof. induction d; simpl; auto with plain. Qed.

Lemma plain_str_int (z : Z) : plain (Text.str_int z).
Proof.
  unfold Text.str_int.
  destruct (Z.to_int z) as [d|d]; simpl;
    [|apply plain_String; [reflexivity|]];
    destruct d; simpl; auto using plain_uint with plain.
Qed.

Lemma plain_zeros (n : nat) : plain (Text.zeros n).
Proof. induction n; simpl; auto with plain. Qed.

Lemma plain_substring (s : string) :
  plain s -> forall n m, plain (substring n m s).
Proof.
  induction s as [|c s IH]; intros Hs n m.
  - destruct n, m; exact Hs.
  - apply plain_inv in Hs. destruct Hs as [Hc Hs].
    destruct n, m; simpl; auto with plain.
Qed.

#[local] Hint Resolve plain_str_int plain_zeros plain_substring : plain.

Lemma plain_layout (ds : string) (decpt : Z) :
  plain ds -> plain (Text.layout ds decpt).
Proof.
  intros Hds. unfold Text.layout.
  destruct (_ || _).
  - apply plain_app.
    + destruct ds as [|c [|c' rest]]; exact Hds.
    + apply plain_app; [reflexivity|].
      apply plain_app; [destruct (_ <? 0); reflexivity|].
      destruct (_ <? 10); auto with plain.
  - destruct (decpt <=? 0); [|destruct (_ <=? decpt)];
      repeat (apply plain_app); auto with plain; reflexivity.
Qed.

Lemma plain_repr_float (x : float) : plain (Text.repr_float x).
Proof.
  unfold Text.repr_float.
  destruct (Prim2SF x) as [[|]|[|]| |sg m e]; try reflexivity.
  destruct (match e with Zneg q => _ | _ => _ end) as [num den].
  destruct (Text.shortest _ _ _ _ _ _) as [d k].
  destruct (Text.strip_zeros _ _ _) as [d' k'].
  apply plain_app; [destruct sg; reflexivity|].
  apply plain_layout, plain_str_int.
Qed.



(** ** The records that the writers produce *)

Lemma string_app_assoc (a b c : string) :
  ((a ++ b) ++ c = a ++ (b ++ c))%string.
Proof. induction a as [|x a IH]; simpl; [reflexivity|]. now rewrite IH. Qed.

Lemma string_app_nil_r (a : string) : (a ++ "")%string = a.
Proof. induction a as [|x a IH]; simpl; [reflexivity|]. now rewrite IH. Qed.

Lemma quote_field_plain (s : string) : plain s -> Csv.quote_field s = s.
Proof. unfold plain, Csv.quote_field. now intros ->. Qed.

Lemma has_newline_app (a b : string) :
  has_newline (a ++ b)%string = has_newline a || has_newline b.
Proof.
  induction a as [|c a IH]; simpl; [reflexivity|].
  rewrite IH. apply orb_assoc.
Qed.

Lemma plain_no_newline (s : string) : plain s -> has_newline s = false.
Proof.
  induction s as [|c s IH]; [reflexivity|].
  intros H. apply plain_inv in H. destruct H as [Hc Hs].
  simpl. rewrite (IH Hs), orb_false_r.
  unfold Csv.special in Hc. unfold Reader.is_newline.
  destruct (c =? ",")%char, (c =? Csv.quotechar)%char,
    (c =? Csv.CR)%char, (c =? Csv.LF)%char; simpl in *; congruence.
Qed.

Lemma concat_no_newline (fields : list string) :
  Forall plain fields -> has_newline (String.concat "," fields) = false.
Proof.
  induction 1 as [|f fields Hf Hfs IH]; [reflexivity|].
  destruct fields as [|g fields]; [now apply plain_no_newline|].
  change (String.concat "," (f :: g :: fields))
    with (f ++ "," ++ String.concat "," (g :: fields))%string.
  rewrite !has_newline_app, IH, (plain_no_newline _ Hf). reflexivity.
Qed.

Lemma map_quote_field_plain (fields : list string) :
  Forall plain fields -> map Csv.quote_field fields = fields.
Proof.
  induction 1 as [|f fields Hf Hfs IH]; simpl; [reflexivity|].
  now rewrite IH, quote_field_plain.
Qed.

Lemma result_row_cells (row : dict float) :
  result_row row ->
  Forall plain (cells row) /\
  keys row = Simulate.fieldnames /\
  map (fun k => match get k row with
                | Some v => Text.str_value v
                | None => EmptyString
                end) Simulate.fieldnames = cells row /\
  exists f g fields, cells row = f :: g :: fields.
Proof.
  intros (name & budget & days & views & clicks & conversions & revenue
          & profit & roi & -> & Hname).
  repeat split.
  - unfold cells; simpl.
    repeat (apply Forall_cons;
            [first [exact Hname | apply plain_str_int
                   | apply plain_repr_float]|]).
    apply Forall_nil.
  - do 3 eexists. reflexivity.
Qed.

Lemma writerow_result_row (terminator : string) (row : dict float) :
  result_row row ->
  Csv.writerow terminator (cells row)
  = (String.concat "," (cells row) ++ terminator)%string /\
  line_of terminator row
    (String.concat "," (cells row) ++ terminator)%string.
Proof.
  intros H. destruct (result_row_cells row H) as (Hp & _ & _ & f & g & fs & E).
  split.
  - unfold Csv.writerow. rewrite (map_quote_field_plain _ Hp).
    rewrite E. destruct f; reflexivity.
  - exists (String.concat "," (cells row)). repeat split.
    now apply concat_no_newline.
Qed.

Lemma dictwriter_writerow_result_row (row : dict float) :
  result_row row ->
  Csv.dictwriter_writerow Simulate.fieldnames row
  = inr (record_of Csv.lineterminator row).
Proof.
  intros H. destruct (result_row_cells row H) as (_ & Hk & Hc & _).
  unfold Csv.dictwriter_writerow, Csv.dict_to_list.
  rewrite Hk, Hc.
  assert (Hall : forallb
            (fun k => existsb (String.eqb k) Simulate.fieldnames)
            Simulate.fieldnames = true) by reflexivity.
  rewrite Hall. cbn [bind ret Monad_either].
  now rewrite (proj1 (writerow_result_row _ _ H)).
Qed.

Lemma write_rows_result_rows (rows : list (dict float)) :
  Forall result_row rows ->
  forall content,
    Simulate.write_rows rows content
    = inr (content
           ++ lines_text (map (record_of Csv.lineterminator) rows))%string.
Proof.
  induction 1 as [|row rows Hrow Hrows IH]; intros content; simpl.
  - now rewrite string_app_nil_r.
  - rewrite (dictwriter_writerow_result_row _ Hrow). simpl.
    rewrite IH, string_app_assoc. reflexivity.
Qed.

Lemma write_rows_inr (results : list (dict float)) :
  forall content0 content,
    Simulate.write_rows results content0 = inr content ->
    exists lines,
      content = (content0 ++ lines_text lines)%string /\
      Forall2 (fun row line =>
                 Csv.dictwriter_writerow Simulate.fieldnames row = inr line)
        results lines.
Proof.
  induction results as [|row results IH]; intros content0 content H;
    simpl in H.
  - inversion H; subst. exists []. simpl. now rewrite string_app_nil_r.
  - destruct (Csv.dictwriter_writerow _ row) as [e|line] eqn:Hl;
      simpl in H; [discriminate|].
    destruct (IH _ _ H) as (lines & -> & Hlines).
    exists (line :: lines). simpl. rewrite string_app_assoc. auto.
Qed.

Lemma writeheader_fieldnames :
  Csv.writeheader Simulate.fieldnames
  = (header_row ++ Csv.lineterminator)%string.
Proof. reflexivity. Qed.

Lemma scenario_row_result_row (rps pps : float) (name : string)
    (budget days : Z) (cpv ctr conv : float) (row : dict float) :
  plain name ->
  Simulate.scenario_row rps pps (name, budget, days, cpv, ctr, conv)
    = inr row ->
  result_row row.
Proof.
  intros Hn H. unfold Simulate.scenario_row in H.
  destruct (int_truediv budget cpv) as [|views]; simpl in H; [discriminate|].
  destruct (if negb (budget =? 0) then _ else _) as [|roi]; simpl in H;
    [discriminate|].
  inversion H; subst; clear H.
  do 9 eexists. split; [reflexivity | exact Hn].
Qed.

Lemma simulation_row_result_row (s : Simulation.scenario float)
    (row : dict float) :
  plain (Simulation.Scenario s) ->
  Simulation.simulation_row s = inr row ->
  result_row row.
Proof.
  intros Hn H. unfold Simulation.simulation_row in H.
  destruct (int_truediv _ _) as [|views]; simpl in H; [discriminate|].
  destruct (mul_int _ (Simulation.RevenuePerSale s)) as [|revenue];
    simpl in H; [discriminate|].
  destruct (mul_int _ (Simulation.ProfitPerSale s)) as [|profit];
    simpl in H; [discriminate|].
  destruct (truediv_int _ _) as [|roi]; simpl in H; [discriminate|].
  inversion H; subst; clear H.
  do 9 eexists. split; [reflexivity | exact Hn].
Qed.

Lemma run_scenarios_result_rows (cs cl ts tl vs vl rps pps : float)
    (rows : list (dict float)) :
  Simulate.run_scenarios cs cl ts tl vs vl rps pps = inr rows ->
  Forall result_row rows /\ List.length rows = 4%nat.
Proof.
  intros H. pose proof (run_scenarios_cases cs cl ts tl vs vl rps pps) as Hc.
  rewrite H in Hc. unfold Simulate.scenarios in Hc.
  repeat match goal with
  | H : Forall2 _ (_ :: _) _ |- _ => inversion H; subst; clear H
  | H : Forall2 _ [] _ |- _ => inversion H; subst; clear H
  | H : Simulate.scenario_row _ _ _ = inr _ |- _ =>
      apply scenario_row_result_row in H; [|reflexivity]
  end.
  split; [|reflexivity].
  repeat (apply Forall_cons; [assumption|]). apply Forall_nil.
Qed.

Lemma run_simulation_result_rows :
  exists r0 r1 r2 r3,
    Simulation.rows = inr [r0; r1; r2; r3] /\
    Forall result_row [r0; r1; r2; r3].
Proof.
  destruct run_simulation_rows as (rows & Hr & H).
  unfold Simulation.scenarios in H.
  repeat match goal with
  | H : Forall2 _ (_ :: _) _ |- _ => inversion H; subst; clear H
  | H : Forall2 _ [] _ |- _ => inversion H; subst; clear H
  | H : Simulation.simulation_row _ = inr _ |- _ =>
      apply simulation_row_result_row in H; [|reflexivity]
  end.
  do 4 eexists. split; [exact Hr|].
  repeat (apply Forall_cons; [assumption|]). apply Forall_nil.
Qed.

Lemma data_frame_columns (row : dict float) (rows : list (dict float)) :
  Forall result_row (row :: rows) ->
  Simulation.columns (Simulation.data_frame (row :: rows))
  = Simulate.fieldnames.
Proof.
  intros H. inversion H as [|? ? Hrow Hrows]; subst.
  unfold Simulation.data_frame. cbn [Simulation.columns fold_left].
  destruct (result_row_cells _ Hrow) as (_ & -> & _).
  change (Simulation.add_keys [] Simulate.fieldnames)
    with Simulate.fieldnames.
  clear H Hrow. induction Hrows as [|r rs Hr Hrs IH]; [reflexivity|].
  cbn [fold_left].
  destruct (result_row_cells _ Hr) as (_ & -> & _).
  exact IH.
Qed.

Lemma to_csv_result_rows (os : Simulation.platform) (row : dict float)
    (rows : list (dict float)) :
  Forall result_row (row :: rows) ->
  Simulation.to_csv os (Simulation.data_frame (row :: rows))
  = (header_row ++ Simulation.linesep os
     ++ lines_text (map (record_of (Simulation.linesep os)) (row :: rows)))
    %string.
Proof.
  intros H. unfold Simulation.to_csv.
  rewrite (data_frame_columns _ _ H).
  cbn [Simulation.records Simulation.data_frame].
  change (Csv.writerow (Simulation.linesep os) Simulate.fieldnames)
    with (header_row ++ Simulation.linesep os)%string.
  rewrite string_app_assoc. do 2 f_equal.
  induction H as [|r rs Hr Hrs IH]; [reflexivity|].
  cbn [map Csv.writerows lines_text].
  destruct (result_row_cells _ Hr) as (_ & _ & -> & _).
  rewrite (proj1 (writerow_result_row _ _ Hr)), IH. reflexivity.
Qed.

Lemma line_of_record_of (terminator : string) (rows : list (dict float)) :
  Forall result_row rows ->
  Forall2 (line_of terminator) rows (map (record_of terminator) rows).
Proof.
  induction 1 as [|row rows Hrow Hrows IH]; simpl; constructor.
  - exact (proj2 (writerow_result_row terminator row Hrow)).
  - exact IH.
Qed.

(** ** The CSV files *)

(** C7. Every CSV file that either variant writes begins with the header
    record [Scenario,Budget,Days,Views,Clicks,Conversions,Revenue,Profit,ROI],
    which is one line, followed by one record per row: for [save_to_csv] on
    any results that it accepts, for the file that [main] writes, where each
    record is one line with the values of its row, and for the file that
    [run_simulation] writes, which has four such lines. *)
Theorem csv_header_then_rows :
  has_newline header_row = false /\
  (forall results content,
     Simulate.save_to_csv results = inr content ->
     exists lines,
       content
       = (header_row ++ Csv.lineterminator ++ lines_text lines)%string /\
       Forall2 (fun row line =>
                  Csv.dictwriter_writerow Simulate.fieldnames row = inr line)
         results lines) /\
  (forall a content,
     Simulate.main a = inr (Some content) ->
     exists rows lines,
       Simulate.main_results a = inr rows /\
       content
       = (header_row ++ Csv.lineterminator ++ lines_text lines)%string /\
       Forall2 (line_of Csv.lineterminator) rows lines) /\
  (forall os,
     exists df lines,
       Simulation.run_simulation os
       = inr (df, (header_row ++ Simulation.linesep os
                   ++ lines_text lines)%string) /\
       Forall2 (line_of (Simulation.linesep os)) (Simulation.records df)
         lines /\
       List.length lines = 4%nat).
Proof.
  split; [reflexivity|]. split; [|split].
  - intros results content H. unfold Simulate.save_to_csv in H.
    apply write_rows_inr in H. destruct H as (lines & -> & H).
    exists lines. rewrite writeheader_fieldnames, string_app_assoc. auto.
  - intros a content H. unfold Simulate.main in H.
    destruct (Simulate.main_results a) as [e|rows] eqn:Hr;
      cbn [bind ret Monad_either] in H; [discriminate|].
    destruct (Simulate.output a) as [[|c path]|]; try discriminate.
    assert (Hrows : Forall result_row rows).
    { unfold Simulate.main_results in Hr.
      exact (proj1 (run_scenarios_result_rows _ _ _ _ _ _ _ _ _ Hr)). }
    unfold Simulate.save_to_csv in H.
    rewrite (write_rows_result_rows _ Hrows) in H.
    cbn [bind ret Monad_either] in H.
    rewrite writeheader_fieldnames, string_app_assoc in H.
    exists rows, (map (record_of Csv.lineterminator) rows).
    split; [reflexivity|]. split.
    + congruence.
    + now apply line_of_record_of.
  - intros os.
    destruct run_simulation_result_rows as (r0 & r1 & r2 & r3 & Hr & Hrows).
    unfold Simulation.run_simulation. rewrite Hr. cbn [bind ret Monad_either].
    rewrite (to_csv_result_rows _ _ _ Hrows).
    do 2 eexists. split; [reflexivity|]. split.
    + now apply line_of_record_of.
    + reflexivity.
Qed.

Lemma csv_header_then_rows_witness :
  (exists results content,
     Simulate.main_results Simulate.default_args = inr results /\
     Simulate.save_to_csv results = inr content /\
     exists lines,
       content
       = (header_row ++ Csv.lineterminator ++ lines_text lines)%string /\
       Forall2 (fun row line =>
                  Csv.dictwriter_writerow Simulate.fieldnames row = inr line)
         results lines) /\
  (exists content,
     Simulate.main
       {| Simulate.output := Some "results.csv";
          Simulate.cpv_small := 0.06; Simulate.cpv_large := 0.05;
          Simulate.ctr_small := 0.05; Simulate.ctr_large := 0.06;
          Simulate.conv_small := 0.04; Simulate.conv_large := 0.05;
          Simulate.revenue_per_sale := 100; Simulate.profit_per_sale := 50 |}
     = inr (Some content) /\
     exists rows lines,
       Simulate.main_results
         {| Simulate.output := Some "results.csv";
            Simulate.cpv_small := 0.06; Simulate.cpv_large := 0.05;
            Simulate.ctr_small := 0.05; Simulate.ctr_large := 0.06;
            Simulate.conv_small := 0.04; Simulate.conv_large := 0.05;
            Simulate.revenue_per_sale := 100;
            Simulate.profit_per_sale := 50 |}
       = inr rows /\
       content
       = (header_row ++ Csv.lineterminator ++ lines_text lines)%string /\
       Forall2 (line_of Csv.lineterminator) rows lines).
Proof.
  split.
  - do 2 eexists. split; [vm_compute; reflexivity|].
    split; [vm_compute; reflexivity|].
    apply (proj1 (proj2 csv_header_then_rows)).
    vm_compute. reflexivity.
  - eexists. split; [vm_compute; reflexivity|].
    apply (proj1 (proj2 (proj2 csv_header_then_rows))).
    vm_compute. reflexivity.
Defined.

(** ** Reading the records back *)

Lemma int_of_str_str_int (z : Z) : Text.int_of_str (Text.str_int z) = Some z.
Proof.
  unfold Text.int_of_str, Text.str_int.
  rewrite NilZero.isi.
  - simpl. now rewrite DecimalZ.of_to.
  - destruct z; simpl; try discriminate.
    intros H. inversion H as [Hp].
    now apply DecimalPos.Unsigned.to_uint_nonnil in Hp.
  - destruct z; simpl; try discriminate.
    intros H. inversion H as [Hp].
    now apply DecimalPos.Unsigned.to_uint_nonnil in Hp.
Qed.

Section Feed.
Import Reader.

Lemma process_plain_in_field (c : ascii) (fld : string)
    (flds : list string) (recs : list (list string)) :
  Csv.special c = false ->
  process_char {| state := IN_FIELD; field := fld; fields := flds;
                  records := recs |} c
  = {| state := IN_FIELD; field := (fld ++ String c "")%string;
       fields := flds; records := recs |}.
Proof.
  intros H. unfold Csv.special in H.
  apply orb_false_elim in H. destruct H as [H Hlf].
  apply orb_false_elim in H. destruct H as [H Hcr].
  apply orb_false_elim in H. destruct H as [Hcomma Hq].
  unfold process_char, is_newline. cbn [state].
  rewrite Hcr, Hlf, Hcomma. reflexivity.
Qed.

Lemma feed_in_field (f : string) :
  plain f ->
  forall fld flds recs rest,
    feed {| state := IN_FIELD; field := fld; fields := flds;
            records := recs |} (f ++ rest)
    = feed {| state := IN_FIELD; field := (fld ++ f)%string;
              fields := flds; records := recs |} rest.
Proof.
  induction f as [|c f IH]; intros Hf fld flds recs rest.
  - simpl. now rewrite string_app_nil_r.
  - apply plain_inv in Hf. destruct Hf as [Hc Hf].
    cbn [append feed]. rewrite (process_plain_in_field _ _ _ _ Hc).
    rewrite (IH Hf), string_app_assoc. reflexivity.
Qed.

(** A plain field read from the start of a field, up to the character
    that ends it. *)
Lemma feed_field (f : string) (m : mode) :
  plain f ->
  m = START_FIELD \/ (m = START_RECORD /\ f <> EmptyString) ->
  forall flds recs rest,
    feed {| state := m; field := ""; fields := flds; records := recs |}
      (f ++ rest)
    = feed {| state := (match f with
                        | EmptyString => START_FIELD
                        | _ => IN_FIELD
                        end);
              field := f; fields := flds; records := recs |} rest.
Proof.
  intros Hf Hm flds recs rest.
  destruct f as [|c f].
  - destruct Hm as [->|[_ H]]; [reflexivity | contradiction].
  - apply plain_inv in Hf. destruct Hf as [Hc Hf].
    cbn [append feed].
    assert (E : process_char
                  {| state := m; field := ""; fields := flds;
                     records := recs |} c
                = {| state := IN_FIELD; field := String c "";
                     fields := flds; records := recs |}).
    { unfold Csv.special in Hc.
      apply orb_false_elim in Hc. destruct Hc as [Hc Hlf].
      apply orb_false_elim in Hc. destruct Hc as [Hc Hcr].
      apply orb_false_elim in Hc. destruct Hc as [Hcomma Hq].
      destruct Hm as [->|[-> _]];
        unfold process_char, start_record, start_field, is_newline;
        cbn [state]; rewrite Hcr, Hlf, Hq, Hcomma; reflexivity. }
    rewrite E. now rewrite (feed_in_field f Hf).
Qed.

Lemma feed_field_comma (f : string) (m : mode) :
  plain f ->
  m = START_FIELD \/ m = START_RECORD ->
  forall flds recs rest,
    feed {| state := m; field := ""; fields := flds; records := recs |}
      (f ++ String "," rest)
    = feed {| state := START_FIELD; field := ""; fields := flds ++ [f];
              records := recs |} rest.
Proof.
  intros Hf Hm flds recs rest.
  destruct f as [|c f].
  - destruct Hm as [->| ->]; reflexivity.
  - rewrite feed_field; [reflexivity | exact Hf |].
    destruct Hm as [->| ->]; [left; reflexivity|].
    right. split; [reflexivity | discriminate].
Qed.

Lemma feed_field_crlf (f : string) :
  plain f ->
  forall flds recs rest,
    feed {| state := START_FIELD; field := ""; fields := flds;
            records := recs |}
      (f ++ Csv.lineterminator ++ rest)
    = feed {| state := START_RECORD; field := ""; fields := [];
              records := recs ++ [flds ++ [f]] |} rest.
Proof.
  intros Hf flds recs rest.
  rewrite feed_field; [|exact Hf | left; reflexivity].
  destruct f; reflexivity.
Qed.

(** The fields of a record, from the second on. *)
Lemma feed_fields (fs : list string) :
  Forall plain fs -> fs <> [] ->
  forall flds recs rest,
    feed {| state := START_FIELD; field := ""; fields := flds;
            records := recs |}
      (String.concat "," fs ++ Csv.lineterminator ++ rest)
    = feed {| state := START_RECORD; field := ""; fields := [];
              records := recs ++ [flds ++ fs] |} rest.
Proof.
  induction 1 as [|f fs Hf Hfs IH]; intros Hne flds recs rest;
    [contradiction|].
  destruct fs as [|g fs].
  - cbn [String.concat]. now apply feed_field_crlf.
  - change (String.concat "," (f :: g :: fs))
      with (f ++ String "," (String.concat "," (g :: fs)))%string.
    rewrite string_app_assoc. cbn [append].
    rewrite (feed_field_comma f START_FIELD Hf); [|left; reflexivity].
    rewrite IH; [|discriminate].
    now rewrite <- app_assoc.
Qed.

Lemma feed_record (f g : string) (fs : list string) :
  Forall plain (f :: g :: fs) ->
  forall recs rest,
    feed {| state := START_RECORD; field := ""; fields := [];
            records := recs |}
      (String.concat "," (f :: g :: fs) ++ Csv.lineterminator ++ rest)
    = feed {| state := START_RECORD; field := ""; fields := [];
              records := recs ++ [f :: g :: fs] |} rest.
Proof.
  intros H recs rest. inversion H as [|? ? Hf Hfs]; subst.
  change (String.concat "," (f :: g :: fs))
    with (f ++ String "," (String.concat "," (g :: fs)))%string.
  rewrite string_app_assoc. cbn [append].
  rewrite (feed_field_comma f START_RECORD Hf); [|right; reflexivity].
  rewrite feed_fields; [reflexivity | exact Hfs | discriminate].
Qed.

Lemma feed_result_rows (terminator := Csv.lineterminator)
    (rows : list (dict float)) :
  Forall result_row rows ->
  forall recs,
    feed {| state := START_RECORD; field := ""; fields := [];
            records := recs |}
      (lines_text (map (record_of terminator) rows))
    = {| state := START_RECORD; field := ""; fields := [];
         records := recs ++ map cells rows |}.
Proof.
  induction 1 as [|row rows Hrow Hrows IH]; intros recs.
  - simpl. now rewrite app_nil_r.
  - cbn [map lines_text]. unfold record_of at 1.
    destruct (result_row_cells _ Hrow) as (Hp & _ & _ & f & g & fs & E).
    rewrite E in *. rewrite string_app_assoc.
    rewrite (feed_record f g fs Hp), IH, <- app_assoc. reflexivity.
Qed.

Lemma read_records_result_rows (rows : list (dict float)) :
  Forall result_row rows ->
  read_records
    (header_row ++ Csv.lineterminator
     ++ lines_text (map (record_of Csv.lineterminator) rows))
  = Simulate.fieldnames :: map cells rows.
Proof.
  intros H. unfold read_records.
  change header_row with (String.concat "," Simulate.fieldnames).
  unfold Simulate.fieldnames.
  rewrite feed_record.
  - now rewrite (feed_result_rows rows H).
  - repeat (apply Forall_cons; [reflexivity|]). apply Forall_nil.
Qed.
End Feed.

Lemma convert_int (k : string) (z : Z) :
  k = "Budget" \/ k = "Days" ->
  Reader.convert k (Text.str_int z) = inr (VInt z).
Proof.
  intros [-> | ->]; unfold Reader.convert;
    rewrite int_of_str_str_int; reflexivity.
Qed.

Lemma convert_float (k : string) (x : float) :
  In k ["Views"; "Clicks"; "Conversions"; "Revenue"; "Profit"; "ROI"] ->
  Text.float_of_str (Text.repr_float x) = Some x ->
  Reader.convert k (Text.repr_float x) = inr (VFloat x).
Proof.
  intros Hk Hx. unfold Reader.convert. rewrite Hx.
  simpl in Hk.
  destruct Hk as [<-|[<-|[<-|[<-|[<-|[<-|[]]]]]]]; reflexivity.
Qed.

Lemma read_row_result_row (row : dict float) :
  result_row row -> floats_read_back row ->
  Reader.read_row Simulate.fieldnames (cells row) = inr row.
Proof.
  intros (name & budget & days & views & clicks & conversions & revenue
          & profit & roi & -> & Hname) Hf.
  unfold cells, Simulate.fieldnames.
  cbn [map snd Text.str_value Reader.read_row].
  change (Reader.convert "Scenario" name)
    with (@inr exn (value float) (VStr name)).
  rewrite !convert_int by tauto.
  rewrite (convert_float "Views"), (convert_float "Clicks"),
    (convert_float "Conversions"), (convert_float "Revenue"),
    (convert_float "Profit"), (convert_float "ROI");
    try (simpl; tauto);
    try (eapply Hf; simpl; eauto 12).
Qed.

Lemma read_rows_result_rows (rows : list (dict float)) :
  Forall result_row rows -> Forall floats_read_back rows ->
  Reader.read_rows Simulate.fieldnames (map cells rows) = inr rows.
Proof.
  induction 1 as [|row rows Hrow Hrows IH]; intros Hf; [reflexivity|].
  inversion Hf as [|? ? Hfrow Hfrows]; subst.
  cbn [map Reader.read_rows].
  destruct (result_row_cells _ Hrow) as (_ & _ & _ & f & g & fs & E).
  rewrite E, <- E.
  rewrite (read_row_result_row _ Hrow Hfrow), (IH Hfrows). reflexivity.
Qed.

(** Writing result rows and reading the file back gives the same rows,
    when every float is read back from its text. *)
Lemma save_then_load (rows : list (dict float)) :
  Forall result_row rows -> Forall floats_read_back rows ->
  exists content,
    Simulate.save_to_csv rows = inr content /\
    Reader.load_csv content = inr rows.
Proof.
  intros Hr Hf. eexists. split.
  - unfold Simulate.save_to_csv.
    rewrite (write_rows_result_rows _ Hr), writeheader_fieldnames,
      string_app_assoc.
    reflexivity.
  - unfold Reader.load_csv.
    rewrite (read_records_result_rows _ Hr).
    now apply read_rows_result_rows.
Qed.

(** The floats of the default run are read back from their text. *)
Lemma default_floats_read_back (rows : list (dict float)) :
  Simulate.main_results Simulate.default_args = inr rows ->
  Forall floats_read_back rows.
Proof.
  intros H. vm_compute in H. inversion H; subst; clear H.
  repeat (apply Forall_cons; [|]); try apply Forall_nil;
    intros k x Hin; simpl in Hin;
    repeat match goal with
    | H : _ \/ _ |- _ => destruct H
    | H : False |- _ => destruct H
    | H : (_, _) = (_, _) |- _ => inversion H; subst; clear H
    end;
    vm_compute; reflexivity.
Qed.

(** ** The CSV round trip *)

(** C8. Writing the four-row table of the default run with [save_to_csv]
    and reading the file back gives the same table, every field with the
    same value, the floats exactly.  For other parameters the same holds
    whenever each float of the table is read back by [float] from its
    [repr], which is what the shortest representation is made for. *)
Theorem csv_round_trip :
  (exists rows content,
     Simulate.main_results Simulate.default_args = inr rows /\
     List.length rows = 4%nat /\
     Simulate.save_to_csv rows = inr content /\
     Reader.load_csv content = inr rows) /\
  (forall cs cl ts tl vs vl rps pps rows,
     Simulate.run_scenarios cs cl ts tl vs vl rps pps = inr rows ->
     Forall floats_read_back rows ->
     exists content,
       Simulate.save_to_csv rows = inr content /\
       Reader.load_csv content = inr rows).
Proof.
  split.
  - destruct default_run as (r0 & r1 & r2 & r3 & H).
    destruct (run_scenarios_result_rows _ _ _ _ _ _ _ _ _ H) as [Hr Hl].
    destruct (save_then_load _ Hr (default_floats_read_back _ H))
      as (content & Hs & Hload).
    exists [r0; r1; r2; r3], content. auto.
  - intros cs cl ts tl vs vl rps pps rows H Hf.
    destruct (run_scenarios_result_rows _ _ _ _ _ _ _ _ _ H) as [Hr _].
    now apply save_then_load.
Qed.

Lemma csv_round_trip_witness :
  exists rows,
    Simulate.run_scenarios 0.06%float 0.05%float 0.05%float 0.06%float
      0.04%float 0.05%float 100%float 50%float = inr rows /\
    Forall floats_read_back rows /\
    exists content,
      Simulate.save_to_csv rows = inr content /\
      Reader.load_csv content = inr rows.
Proof.
  destruct default_run as (r0 & r1 & r2 & r3 & H).
  exists [r0; r1; r2; r3].
  split; [exact H|].
  split; [exact (default_floats_read_back _ H)|].
  exact (proj2 csv_round_trip _ _ _ _ _ _ _ _ _ H
           (default_floats_read_back _ H)).
Defined.

(** ** Concrete runs *)

(** The file that [python simulate.py --output results.csv] writes. *)
Example default_csv_file :
  Simulate.main
    {| Simulate.output := Some "results.csv";
       Simulate.cpv_small := 0.06; Simulate.cpv_large := 0.05;
       Simulate.ctr_small := 0.05; Simulate.ctr_large := 0.06;
       Simulate.conv_small := 0.04; Simulate.conv_large := 0.05;
       Simulate.revenue_per_sale := 100; Simulate.profit_per_sale := 50 |}
  = inr (Some (lines_text (map (fun l => l ++ Csv.lineterminator)%string
      [ "Scenario,Budget,Days,Views,Clicks,Conversions,Revenue,Profit,ROI";
        "Small,100,5,1666.6666666666667,83.33333333333334,3.333333333333334,333.33333333333337,166.66666666666669,3.333333333333334";
        "Baseline,200,10,3333.3333333333335,166.66666666666669,6.666666666666668,666.6666666666667,333.33333333333337,3.333333333333334";
        "Large,500,30,10000.0,600.0,30.0,3000.0,1500.0,6.0";
        "Long,400,60,8000.0,480.0,24.0,2400.0,1200.0,6.0" ]))).
Proof. vm_compute. reflexivity. Qed.

(** The defaults of [parse_args] are the floats that [float] reads from
    their decimal numerals. *)
Example default_literals :
  map Text.float_of_str ["0.06"; "0.05"; "0.04"; "100.0"; "50.0"]
  = map Some [0.06; 0.05; 0.04; 100; 50]%float.
Proof. vm_compute. reflexivity. Qed.

(** [repr] on a few floats, as CPython prints them. *)
Example repr_float_examples :
  map Text.repr_float
    [ 0.1; 1e22; 1e16; 1e15; 1e-4; 1e-5; 0x1p-1074; -2.5;
      892829736405507.75; 0; neg_zero; infinity; nan ]%float
  = [ "0.1"; "1e+22"; "1e+16"; "1000000000000000.0"; "0.0001"; "1e-05";
      "5e-324"; "-2.5"; "892829736405507.8"; "0.0"; "-0.0"; "inf"; "nan" ].
Proof. vm_compute. reflexivity. Qed.

(** A field with a comma or a quote is quoted, and read back. *)
Example quoted_field :
  let q := String Csv.quotechar "" in
  Csv.writerow Csv.lineterminator ["a,b"; ("say " ++ q ++ "hi" ++ q)%string]
  = (q ++ "a,b" ++ q ++ "," ++ q ++ "say " ++ q ++ q ++ "hi" ++ q ++ q ++ q
     ++ Csv.lineterminator)%string /\
  Reader.read_records
    (Csv.writerow Csv.lineterminator
       ["a,b"; ("say " ++ q ++ "hi" ++ q)%string])
  = [["a,b"; ("say " ++ q ++ "hi" ++ q)%string]].
Proof. vm_compute. split; reflexivity. Qed.

(** * Further properties of the code *)

(** ** When [run_scenarios] raises *)

Lemma scenario_row_zero_cpv (rps pps : float) (name : string)
    (budget days : Z) (cpv ctr conv : float) (row : dict float) :
  is_zero cpv = true ->
  Simulate.scenario_row rps pps (name, budget, days, cpv, ctr, conv)
  <> inr row.
Proof.
  intros Hz. unfold Simulate.scenario_row, int_truediv, truediv.
  rewrite Hz. destruct (as_float budget); discriminate.
Qed.

Lemma run_scenarios_zero_cpv (cs cl ts tl vs vl rps pps : float) :
  is_zero cs = true \/ is_zero cl = true ->
  Simulate.run_scenarios cs cl ts tl vs vl rps pps = inl ZeroDivisionError.
Proof.
  intros Hz.
  pose proof (run_scenarios_cases cs cl ts tl vs vl rps pps) as Hc.
  destruct (Simulate.run_scenarios cs cl ts tl vs vl rps pps)
    as [e|rows] eqn:Hr.
  - destruct Hc as [-> _]. reflexivity.
  - exfalso. unfold Simulate.scenarios in Hc.
    repeat match goal with
    | H : Forall2 _ (_ :: _) _ |- _ => inversion H; subst; clear H
    end.
    destruct Hz as [Hz|Hz];
      match goal with
      | H : Simulate.scenario_row _ _ (_, _, _, ?c, _, _) = inr _,
        Hz : is_zero ?c = true |- _ =>
          exact (scenario_row_zero_cpv _ _ _ _ _ _ _ _ _ Hz H)
      end.
Qed.

(** X1. [run_scenarios] returns its four rows exactly when neither cost per
    view compares equal to zero; with a zero cost per view, of either sign,
    it raises [ZeroDivisionError], and it raises nothing else. *)
Theorem run_scenarios_returns_iff (cs cl ts tl vs vl rps pps : float) :
  (is_zero cs = false /\ is_zero cl = false <->
   exists rows,
     Simulate.run_scenarios cs cl ts tl vs vl rps pps = inr rows /\
     List.length rows = 4%nat) /\
  (is_zero cs = true \/ is_zero cl = true <->
   Simulate.run_scenarios cs cl ts tl vs vl rps pps = inl ZeroDivisionError).
Proof.
  pose proof (run_scenarios_cases cs cl ts tl vs vl rps pps) as Hc.
  pose proof (run_scenarios_zero_cpv cs cl ts tl vs vl rps pps) as Hz.
  split; split.
  - intros [Hs Hl].
    destruct (Simulate.run_scenarios cs cl ts tl vs vl rps pps)
      as [e|rows] eqn:Hr.
    + destruct Hc as [_ [Hc|Hc]]; congruence.
    + exists rows. split; [reflexivity|].
      exact (proj2 (run_scenarios_result_rows _ _ _ _ _ _ _ _ _ Hr)).
  - intros (rows & Hr & _).
    destruct (is_zero cs) eqn:Hcs; [rewrite Hz in Hr by auto; discriminate|].
    destruct (is_zero cl) eqn:Hcl; [rewrite Hz in Hr by auto; discriminate|].
    auto.
  - exact Hz.
  - intros Hr. rewrite Hr in Hc. tauto.
Qed.

Lemma run_scenarios_returns_iff_witness :
  (exists rows,
     Simulate.run_scenarios 0.06%float 0.05%float 0.05%float 0.06%float
       0.04%float 0.05%float 100%float 50%float = inr rows /\
     List.length rows = 4%nat) /\
  Simulate.run_scenarios 0.06%float (-0)%float 0.05%float 0.06%float
    0.04%float 0.05%float 100%float 50%float = inl ZeroDivisionError.
Proof.
  split.
  - apply (proj1 (run_scenarios_returns_iff 0.06 0.05 0.05 0.06 0.04 0.05
                    100 50)).
    split; reflexivity.
  - apply (proj2 (run_scenarios_returns_iff 0.06 (-0) 0.05 0.06 0.04 0.05
                    100 50)).
    right. reflexivity.
Defined.

(** ** The two loop bodies on one scenario *)

(** X2. On any scenario, not only the four of the tables: when the loop
    body of variant 2 returns a row, the loop body of variant 1, given the
    same rates and the two per-sale amounts as floats, returns a row with
    the same scenario, budget, days, views, clicks, conversions, revenue
    and profit; only the ROI differs, revenue over budget in variant 1 and
    profit over budget in variant 2. *)
Theorem loop_bodies_agree_except_roi (s : Simulation.scenario float)
    (rps pps : float) (row2 : dict float) :
  of_int (Simulation.RevenuePerSale s) = Some rps ->
  of_int (Simulation.ProfitPerSale s) = Some pps ->
  Simulation.simulation_row s = inr row2 ->
  exists row1,
    Simulate.scenario_row rps pps
      (Simulation.Scenario s, Simulation.Budget s, Simulation.Days s,
       Simulation.CPV s, Simulation.CTR s, Simulation.ConvRate s)
    = inr row1 /\
    (forall k, k <> "ROI" -> get k row1 = get k row2) /\
    roi_revenue_over_budget row1 /\
    roi_profit_over_budget row2.
Proof.
  destruct s as [name budget days cpv ctr conv ri pi].
  cbn [Simulation.Scenario Simulation.Budget Simulation.Days Simulation.CPV
       Simulation.CTR Simulation.ConvRate Simulation.RevenuePerSale
       Simulation.ProfitPerSale].
  intros Hr Hp H2.
  pose proof (simulation_row_roi _ _ H2) as Hroi2.
  unfold Simulation.simulation_row, int_truediv, truediv_int, mul_int,
    as_float, truediv in H2.
  cbn [Simulation.Scenario Simulation.Budget Simulation.Days Simulation.CPV
       Simulation.CTR Simulation.ConvRate Simulation.RevenuePerSale
       Simulation.ProfitPerSale] in H2.
  rewrite Hr, Hp in H2.
  destruct (of_int budget) as [b|] eqn:Hb; cbn [bind ret Monad_either] in H2;
    [|discriminate].
  destruct (is_zero cpv) eqn:Hc; cbn [bind ret Monad_either] in H2;
    [discriminate|].
  destruct (is_zero b) eqn:Hz; cbn [bind ret Monad_either] in H2;
    [discriminate|].
  assert (Hn : (budget =? 0) = false).
  { destruct (Z.eqb_spec budget 0) as [->|]; [|reflexivity].
    assert (E : Some b = Some 0%float) by (rewrite <- Hb; reflexivity).
    inversion E; subst. discriminate Hz. }
  assert (H1 : Simulate.scenario_row rps pps
                 (name, budget, days, cpv, ctr, conv)
               = inr [ ("Scenario", VStr name); ("Budget", VInt budget);
                       ("Days", VInt days); ("Views", VFloat (fdiv b cpv));
                       ("Clicks", VFloat (fmul (fdiv b cpv) ctr));
                       ("Conversions",
                        VFloat (fmul (fmul (fdiv b cpv) ctr) conv));
                       ("Revenue",
                        VFloat (fmul (fmul (fmul (fdiv b cpv) ctr) conv)
                                  rps));
                       ("Profit",
                        VFloat (fmul (fmul (fmul (fdiv b cpv) ctr) conv)
                                  pps));
                       ("ROI",
                        VFloat (fdiv (fmul (fmul (fmul (fdiv b cpv) ctr)
                                              conv) rps) b)) ]).
  { unfold Simulate.scenario_row, int_truediv, truediv_int, as_float,
      truediv.
    rewrite Hb, Hn. cbn [bind ret Monad_either negb].
    rewrite Hc. cbn [bind ret Monad_either]. rewrite Hz. reflexivity. }
  eexists. split; [exact H1|].
  inversion H2; subst; clear H2. split; [|split].
  - intros k Hk. apply String.eqb_neq in Hk. cbn [get]. rewrite Hk.
    reflexivity.
  - eapply scenario_row_roi; [|exact H1].
    now apply Z.eqb_neq.
  - exact Hroi2.
Qed.

Lemma loop_bodies_agree_except_roi_witness :
  exists row2 row1,
    Simulation.simulation_row
      {| Simulation.Scenario := "Trial"; Simulation.Budget := 250;
         Simulation.Days := 7; Simulation.CPV := 0.07%float;
         Simulation.CTR := 0.05%float; Simulation.ConvRate := 0.03%float;
         Simulation.RevenuePerSale := 80; Simulation.ProfitPerSale := 30 |}
    = inr row2 /\
    Simulate.scenario_row 80%float 30%float
      ("Trial", 250, 7, 0.07%float, 0.05%float, 0.03%float) = inr row1 /\
    (forall k, k <> "ROI" -> get k row1 = get k row2) /\
    roi_revenue_over_budget row1 /\
    roi_profit_over_budget row2.
Proof.
  pose (s := {| Simulation.Scenario := "Trial"; Simulation.Budget := 250;
                Simulation.Days := 7; Simulation.CPV := 0.07%float;
                Simulation.CTR := 0.05%float;
                Simulation.ConvRate := 0.03%float;
                Simulation.RevenuePerSale := 80;
                Simulation.ProfitPerSale := 30 |}).
  assert (Hr : of_int (Simulation.RevenuePerSale s) = Some 80%float)
    by (vm_compute; reflexivity).
  assert (Hp : of_int (Simulation.ProfitPerSale s) = Some 30%float)
    by (vm_compute; reflexivity).
  destruct (Simulation.simulation_row s) as [e|row2] eqn:H2;
    [vm_compute in H2; discriminate|].
  destruct (loop_bodies_agree_except_roi s 80 30 row2 Hr Hp H2)
    as (row1 & H1 & Hk & Hr1 & Hr2).
  exists row2, row1.
  exact (conj H2 (conj H1 (conj Hk (conj Hr1 Hr2)))).
Defined.

(** X3. A zero budget separates the two loop bodies: variant 2 divides the
    profit by the budget without a guard and raises [ZeroDivisionError],
    whatever the rates are, where variant 1 returns an ROI of [0.0]. *)
Theorem zero_budget_variant_2 (name : string) (days rps pps : Z)
    (cpv ctr conv r p : float) :
  of_int rps = Some r ->
  of_int pps = Some p ->
  Simulation.simulation_row
    {| Simulation.Scenario := name; Simulation.Budget := 0;
       Simulation.Days := days; Simulation.CPV := cpv;
       Simulation.CTR := ctr; Simulation.ConvRate := conv;
       Simulation.RevenuePerSale := rps; Simulation.ProfitPerSale := pps |}
  = inl ZeroDivisionError.
Proof.
  intros Hr Hp.
  destruct as_float_table as (H0 & _).
  unfold Simulation.simulation_row, int_truediv, truediv_int, mul_int.
  cbn [Simulation.Scenario Simulation.Budget Simulation.Days Simulation.CPV
       Simulation.CTR Simulation.ConvRate Simulation.RevenuePerSale
       Simulation.ProfitPerSale].
  rewrite H0. unfold as_float. rewrite Hr, Hp.
  cbn [bind ret Monad_either]. unfold truediv.
  destruct (is_zero cpv); reflexivity.
Qed.

Lemma zero_budget_variant_2_witness :
  Simulation.simulation_row
    {| Simulation.Scenario := "Zero"; Simulation.Budget := 0;
       Simulation.Days := 5; Simulation.CPV := 0.06%float;
       Simulation.CTR := 0.05%float; Simulation.ConvRate := 0.04%float;
       Simulation.RevenuePerSale := 100; Simulation.ProfitPerSale := 50 |}
  = inl ZeroDivisionError.
Proof.
  apply (zero_budget_variant_2 "Zero" 5 100 50 0.06 0.05 0.04 100 50);
    vm_compute; reflexivity.
Defined.

(** ** Which rows [save_to_csv] accepts *)





(** ** The file that [save_to_csv] leaves *)











(** ** The order of the columns *)

Lemma get_permutation (d d' : dict float) :
  Permutation d d' -> NoDup (keys d) ->
  forall k, get k d = get k d'.
Proof.
  induction 1 as [|[k1 v1] d d' Hp IH|[k1 v1] [k2 v2] d|d d' d'' H1 IH1 H2 IH2];
    intros Hn k.
  - reflexivity.
  - cbn [get]. inversion Hn; subst. now rewrite IH.
  - cbn [get]. inversion Hn as [|? ? Hnot _]; subst.
    destruct (String.eqb_spec k k1) as [E1|_],
             (String.eqb_spec k k2) as [E2|_]; try reflexivity.
    exfalso. apply Hnot. cbn [keys map fst]. left. congruence.
  - rewrite IH1 by assumption. apply IH2.
    unfold keys. eapply Permutation_NoDup; [|exact Hn].
    now apply Permutation_map.
Qed.

(** X7. The records of [save_to_csv] do not depend on the order of the
    keys in a row: the columns are those of the field names, in their
    order, so two rows with the same entries in a different order are
    written, or refused, alike. *)
Theorem dictwriter_writerow_permutation (row row' : dict float) :
  NoDup (keys row) ->
  Permutation row row' ->
  Csv.dictwriter_writerow Simulate.fieldnames row
  = Csv.dictwriter_writerow Simulate.fieldnames row'.
Proof.
  intros Hn Hp. unfold Csv.dictwriter_writerow, Csv.dict_to_list.
  assert (Hk : forallb
                 (fun k => existsb (String.eqb k) Simulate.fieldnames)
                 (keys row)
               = forallb
                   (fun k => existsb (String.eqb k) Simulate.fieldnames)
                   (keys row')).
  { apply eq_true_iff_eq. rewrite !forallb_forall.
    assert (Hpk : Permutation (keys row) (keys row'))
      by (unfold keys; now apply Permutation_map).
    split; intros H k Hin; apply H.
    - eapply Permutation_in; [symmetry; exact Hpk | exact Hin].
    - eapply Permutation_in; [exact Hpk | exact Hin]. }
  rewrite Hk. destruct (forallb _ (keys row')); [|reflexivity].
  cbn [bind ret Monad_either]. do 2 f_equal.
  apply map_ext. intros k. now rewrite (get_permutation _ _ Hp Hn).
Qed.

Lemma dictwriter_writerow_permutation_witness :
  Csv.dictwriter_writerow Simulate.fieldnames
    [("Scenario", VStr "Small"); ("Budget", VInt 100); ("Days", VInt 5)]
  = Csv.dictwriter_writerow Simulate.fieldnames
      [("Budget", VInt 100); ("Scenario", VStr "Small"); ("Days", VInt 5)].
Proof.
  apply dictwriter_writerow_permutation.
  - repeat constructor; simpl; intuition discriminate.
  - apply perm_swap.
Defined.

Lemma add_keys_fresh (ks cols : list string) :
  NoDup (cols ++ ks) -> Simulation.add_keys cols ks = cols ++ ks.
Proof.
  revert cols. induction ks as [|k ks IH]; intros cols Hn.
  - now rewrite app_nil_r.
  - cbn [Simulation.add_keys].
    assert (Hk : existsb (String.eqb k) cols = false).
    { destruct (existsb (String.eqb k) cols) eqn:E; [|reflexivity].
      apply existsb_exists in E. destruct E as (k' & Hin & E).
      apply String.eqb_eq in E. subst k'.
      apply NoDup_remove_2 in Hn. exfalso. apply Hn.
      apply in_or_app. now left. }
    rewrite Hk.
    change (k :: ks) with ([k] ++ ks). rewrite app_assoc.
    apply IH. now rewrite <- app_assoc.
Qed.

Lemma add_keys_known (ks cols : list string) :
  incl ks cols -> Simulation.add_keys cols ks = cols.
Proof.
  induction ks as [|k ks IH]; intros Hi; [reflexivity|].
  cbn [Simulation.add_keys].
  assert (Hk : existsb (String.eqb k) cols = true).
  { apply existsb_exists. exists k. split; [|apply String.eqb_refl].
    apply Hi. now left. }
  rewrite Hk. apply IH. intros x Hx. apply Hi. now right.
Qed.

(** X8. In variant 2 the columns of the CSV file are not fixed by the
    code that writes it: they are the keys of the rows' dictionaries, in
    the order in which the loop body lists them.  For rows that all have
    the key list of the first row, the columns of the data frame are that
    list and the header record of [to_csv] is written from it. *)
Theorem data_frame_columns_follow_keys (os : Simulation.platform)
    (row : dict float) (rows : list (dict float)) :
  NoDup (keys row) ->
  Forall (fun r => keys r = keys row) rows ->
  Simulation.columns (Simulation.data_frame (row :: rows)) = keys row /\
  exists records,
    Simulation.to_csv os (Simulation.data_frame (row :: rows))
    = (Csv.writerow (Simulation.linesep os) (keys row) ++ records)%string.
Proof.
  intros Hn Hr.
  assert (Hc : Simulation.columns (Simulation.data_frame (row :: rows))
               = keys row).
  { unfold Simulation.data_frame. cbn [Simulation.columns fold_left].
    rewrite (add_keys_fresh (keys row) []) by exact Hn. cbn [app].
    induction Hr as [|r rs Hr Hrs IH]; [reflexivity|].
    cbn [fold_left]. rewrite Hr.
    rewrite add_keys_known by apply incl_refl. exact IH. }
  split; [exact Hc|].
  unfold Simulation.to_csv. rewrite Hc. eexists. reflexivity.
Qed.

Lemma data_frame_columns_follow_keys_witness :
  Simulation.columns
    (Simulation.data_frame
       [[("ROI", VFloat 3%float); ("Scenario", VStr "Small")];
        [("ROI", VFloat 6%float); ("Scenario", VStr "Large")]])
  = ["ROI"; "Scenario"] /\
  exists records,
    Simulation.to_csv Simulation.Posix
      (Simulation.data_frame
         [[("ROI", VFloat 3%float); ("Scenario", VStr "Small")];
          [("ROI", VFloat 6%float); ("Scenario", VStr "Large")]])
    = (Csv.writerow (Simulation.linesep Simulation.Posix)
         ["ROI"; "Scenario"] ++ records)%string.
Proof.
  apply (data_frame_columns_follow_keys Simulation.Posix
           [("ROI", VFloat 3%float); ("Scenario", VStr "Small")]
           [[("ROI", VFloat 6%float); ("Scenario", VStr "Large")]]).
  - repeat constructor; simpl; intuition discriminate.
  - repeat constructor.
Defined.

(** ** The console table *)

Lemma numeric_column (row : dict float) (key : string) (width prec : nat) :
  match
    (v <- Console.subscript row key ;; Console.format_right_f width prec v)
  with
  | inr _ => numeric_at key row
  | inl _ => ~ numeric_at key row
  end.
Proof.
  unfold Console.subscript, numeric_at.
  destruct (get key row) as [[s|z|x]|] eqn:H;
    cbn [bind ret raise Monad_either Exception_either
         Console.format_right_f].
  - intros (v & E & Hv). inversion E; subst. exact Hv.
  - unfold as_float.
    destruct (of_int z) as [x|] eqn:Hz;
      cbn [bind ret raise Monad_either Exception_either].
    + eexists. split; [reflexivity|]. now exists x.
    + intros (v & E & Hv). inversion E; subst.
      destruct Hv as [x Hx]. congruence.
  - eexists. split; [reflexivity | exact I].
  - intros (v & E & _). discriminate.
Qed.

Lemma text_column (row : dict float) (key : string) :
  match Console.subscript row key with
  | inr v => get key row = Some v
  | inl e => get key row = None /\ e = Console.KeyError key
  end.
Proof.
  unfold Console.subscript.
  destruct (get key row);
    cbn [bind ret raise Monad_either Exception_either]; auto.
Qed.

Ltac numeric_step row key width prec :=
  let H := fresh "Hnum" in
  pose proof (numeric_column row key width prec) as H;
  destruct (Console.subscript row key) as [?e|?v];
  cbn [bind ret Monad_either] in H |- *;
  [unfold printable; tauto|];
  match goal with
  | |- context [Console.format_right_f width prec ?v] =>
      destruct (Console.format_right_f width prec v) as [?e|?c]
  end;
  cbn [bind ret Monad_either] in H |- *;
  [unfold printable; tauto|].

Ltac text_step row key :=
  let H := fresh "Htxt" in
  pose proof (text_column row key) as H;
  destruct (Console.subscript row key) as [?e|?v];
  cbn [bind ret Monad_either] in H |- *;
  [ assert (~ exists v, get key row = Some v)
      by (intros [? ?]; destruct H; congruence);
    unfold printable; tauto
  | assert (exists v, get key row = Some v) by (eexists; exact H) ].

Lemma format_row_cases (row : dict float) :
  match Console.format_row row with
  | inr _ => printable row
  | inl _ => ~ printable row
  end.
Proof.
  unfold Console.format_row.
  text_step row "Scenario".
  numeric_step row "Budget" 6%nat 0%nat.
  text_step row "Days".
  numeric_step row "Views" 10%nat 1%nat.
  numeric_step row "Clicks" 10%nat 1%nat.
  numeric_step row "Conversions" 12%nat 1%nat.
  numeric_step row "Revenue" 10%nat 1%nat.
  numeric_step row "Profit" 10%nat 1%nat.
  numeric_step row "ROI" 6%nat 2%nat.
  unfold printable. tauto.
Qed.




(** ** What [main] prints and writes *)

Lemma scenario_row_printable (rps pps : float) (s : Simulate.scenario float)
    (row : dict float) :
  Simulate.scenario_row rps pps s = inr row -> printable row.
Proof.
  destruct s as [[[[[name budget] days] cpv] ctr] conv].
  unfold Simulate.scenario_row, int_truediv, as_float.
  destruct (of_int budget) as [b|] eqn:Hb;
    cbn [bind ret raise Monad_either Exception_either]; [|discriminate].
  destruct (truediv b cpv) as [|views];
    cbn [bind ret Monad_either]; [discriminate|].
  destruct (if negb (budget =? 0) then _ else _) as [|roi];
    cbn [bind ret Monad_either]; [discriminate|].
  intros H. inversion H; subst; clear H.
  unfold printable, numeric_at. cbn [get String.eqb Ascii.eqb Bool.eqb].
  repeat split; eexists; try (split; [reflexivity|]); try reflexivity;
    try exact I.
  exists b. exact Hb.
Qed.

Lemma print_rows_lines (rows : list (dict float)) :
  forall lines w,
    Forall2 (fun r l => Console.format_row r = inr l) rows lines ->
    Console.print_rows rows w
    = ({| Console.stdout :=
            (Console.stdout w
             ++ lines_text
                  (map (fun l => l ++ String Csv.LF "") lines))%string;
          Console.files := Console.files w;
          Console.denied := Console.denied w |}, inr tt).
Proof.
  induction rows as [|row rows IH]; intros lines w H; inversion H; subst.
  - cbn [Console.print_rows map lines_text]. rewrite string_app_nil_r.
    now destruct w.
  - cbn [Console.print_rows]. rewrite H2.
    rewrite (IH _ _ H4). unfold Console.print.
    cbn [Console.stdout Console.files Console.denied map lines_text].
    now rewrite !string_app_assoc.
Qed.

Lemma printable_lines (rows : list (dict float)) :
  Forall printable rows ->
  exists lines, Forall2 (fun r l => Console.format_row r = inr l) rows lines.
Proof.
  induction 1 as [|row rows Hp _ [lines IH]].
  - exists []. constructor.
  - pose proof (format_row_cases row) as Hc.
    destruct (Console.format_row row) as [e|line] eqn:E; [contradiction|].
    exists (line :: lines). now constructor.
Qed.

Lemma run_scenarios_printable (cs cl ts tl vs vl rps pps : float)
    (rows : list (dict float)) :
  Simulate.run_scenarios cs cl ts tl vs vl rps pps = inr rows ->
  Forall printable rows.
Proof.
  intros H. pose proof (run_scenarios_cases cs cl ts tl vs vl rps pps) as Hc.
  rewrite H in Hc. clear H.
  induction Hc as [|s row ss rows Hrow _ IH]; constructor; [|exact IH].
  exact (scenario_row_printable _ _ _ _ Hrow).
Qed.

(** X10. Without an output path, or with an empty one, [main] writes no
    file and prints the header and one line per result, in order, whatever
    the parameters are: every row that [run_scenarios] returns has what the
    table asks for, so printing never raises. *)
Theorem main_prints_table (a : Simulate.args) (w : Console.world)
    (rows : list (dict float)) :
  Simulate.output a = None \/ Simulate.output a = Some EmptyString ->
  Simulate.main_results a = inr rows ->
  exists lines,
    Forall2 (fun r l => Console.format_row r = inr l) rows lines /\
    Console.main a w
    = ({| Console.stdout :=
            (Console.stdout w
             ++ lines_text
                  (map (fun l => l ++ String Csv.LF "")
                     (Console.header :: lines)))%string;
          Console.files := Console.files w;
          Console.denied := Console.denied w |}, inr tt).
Proof.
  intros Ho Hr.
  assert (Hp : Forall printable rows).
  { unfold Simulate.main_results in Hr.
    exact (run_scenarios_printable _ _ _ _ _ _ _ _ _ Hr). }
  destruct (printable_lines rows Hp) as [lines Hl].
  exists lines. split; [exact Hl|].
  unfold Console.main. rewrite Hr.
  assert (E : match Simulate.output a with
              | Some (String _ _ as path) =>
                  match Console.save_to_csv rows path w with
                  | (w', inl e) => (w', inl e)
                  | (w', inr _) =>
                      (Console.print ("Results saved to " ++ path)%string w',
                       inr tt)
                  end
              | _ => Console.print_rows rows (Console.print Console.header w)
              end
              = Console.print_rows rows (Console.print Console.header w))
    by (destruct Ho as [-> | ->]; reflexivity).
  rewrite E, (print_rows_lines rows lines _ Hl).
  unfold Console.print.
  cbn [Console.stdout Console.files Console.denied map lines_text].
  now rewrite !string_app_assoc.
Qed.

Lemma main_prints_table_witness :
  exists rows lines,
    Simulate.main_results Simulate.default_args = inr rows /\
    Forall2 (fun r l => Console.format_row r = inr l) rows lines /\
    Console.main Simulate.default_args
      {| Console.stdout := ""; Console.files := []; Console.denied := [] |}
    = ({| Console.stdout :=
            lines_text
              (map (fun l => l ++ String Csv.LF "")%string
                 (Console.header :: lines));
          Console.files := []; Console.denied := [] |}, inr tt).
Proof.
  destruct default_run as (r0 & r1 & r2 & r3 & H).
  destruct (main_prints_table Simulate.default_args
              {| Console.stdout := ""; Console.files := [];
                 Console.denied := [] |} _ (or_introl eq_refl) H)
    as (lines & Hl & Hm).
  exists [r0; r1; r2; r3], lines. exact (conj H (conj Hl Hm)).
Defined.



(** X12. When a cost per view is zero [main] raises before it opens the
    file or prints anything: a results file from an earlier run is left as
    it was, and nothing is on the standard output. *)
Theorem main_fails_before_output (a : Simulate.args) (w : Console.world) :
  is_zero (Simulate.cpv_small a) = true \/
  is_zero (Simulate.cpv_large a) = true ->
  Console.main a w = (w, inl (Console.Raised ZeroDivisionError)) /\
  Simulate.main a = inl ZeroDivisionError.
Proof.
  intros Hz.
  assert (Hr : Simulate.main_results a = inl ZeroDivisionError)
    by (unfold Simulate.main_results; now apply run_scenarios_zero_cpv).
  unfold Console.main, Simulate.main. rewrite Hr. split; reflexivity.
Qed.

Lemma main_fails_before_output_witness :
  let a := {| Simulate.output := Some "results.csv";
              Simulate.cpv_small := 0.06; Simulate.cpv_large := 0;
              Simulate.ctr_small := 0.05; Simulate.ctr_large := 0.06;
              Simulate.conv_small := 0.04; Simulate.conv_large := 0.05;
              Simulate.revenue_per_sale := 100;
              Simulate.profit_per_sale := 50 |} in
  let w := {| Console.stdout := "";
              Console.files := [("results.csv", "earlier run")];
              Console.denied := [] |} in
  Console.main a w = (w, inl (Console.Raised ZeroDivisionError)) /\
  Simulate.main a = inl ZeroDivisionError.
Proof.
  intros a w. apply (main_fails_before_output a w). right. reflexivity.
Defined.

(** ** The loop of variant 2 on any list of scenarios *)

Lemma for_append_first_error {F : Type} {PF : PyFloat F} {A : Type}
    (body : A -> sum exn (dict F)) (items : list A) :
  forall acc e,
    for_append body items acc = inl e ->
    exists before item after rows,
      items = before ++ item :: after /\
      Forall2 (fun i r => body i = inr r) before rows /\
      body item = inl e.
Proof.
  induction items as [|i items IH]; intros acc e H; cbn [for_append] in H.
  - discriminate.
  - destruct (body i) as [e'|r] eqn:Hi; cbn [bind ret Monad_either] in H.
    + inversion H; subst. exists [], i, items, []. repeat split.
      * constructor.
      * exact Hi.
    + destruct (IH _ _ H) as (before & item & after & rows & -> & Hb & He).
      exists (i :: before), item, after, (r :: rows). repeat split.
      * now constructor.
      * exact He.
Qed.

Lemma simulation_row_echo (s : Simulation.scenario float) (row : dict float) :
  Simulation.simulation_row s = inr row ->
  get "Scenario" row = Some (VStr (Simulation.Scenario s)) /\
  get "Budget" row = Some (VInt (Simulation.Budget s)) /\
  get "Days" row = Some (VInt (Simulation.Days s)).
Proof.
  intros H. destruct (simulation_row_of _ _ H) as (rps & pps & _ & _ & Hrow).
  unfold row_of in Hrow. tauto.
Qed.

(** X13. The loop of variant 2, on any list of scenarios, returns one row
    per scenario, in the order of the list, each with the name, the budget
    and the days of its scenario; or it raises the exception of the first
    scenario whose row cannot be computed, and returns no rows at all. *)
Theorem simulate_one_row_per_scenario
    (scs : list (Simulation.scenario float)) :
  (forall rows,
     Simulation.simulate scs = inr rows <->
     Forall2 (fun s r => Simulation.simulation_row s = inr r) scs rows) /\
  (forall rows,
     Simulation.simulate scs = inr rows ->
     map (fun r => (get "Scenario" r, get "Budget" r, get "Days" r)) rows
     = map (fun s => (Some (VStr (Simulation.Scenario s)),
                      Some (VInt (Simulation.Budget s)),
                      Some (VInt (Simulation.Days s)))) scs) /\
  (forall e,
     Simulation.simulate scs = inl e ->
     exists before s after rows,
       scs = before ++ s :: after /\
       Forall2 (fun s r => Simulation.simulation_row s = inr r) before rows /\
       Simulation.simulation_row s = inl e).
Proof.
  assert (Hiff : forall rows,
            Simulation.simulate scs = inr rows <->
            Forall2 (fun s r => Simulation.simulation_row s = inr r)
              scs rows).
  { intros rows. unfold Simulation.simulate. split; intros H.
    - destruct (for_append_inr _ _ _ _ H) as (new & -> & Hn). exact Hn.
    - now rewrite (for_append_all _ _ _ _ H). }
  split; [exact Hiff|]. split.
  - intros rows H. apply Hiff in H. clear Hiff.
    induction H as [|s r scs' rows' Hr _ IH]; [reflexivity|].
    cbn [map]. rewrite IH.
    destruct (simulation_row_echo _ _ Hr) as (-> & -> & ->). reflexivity.
  - intros e H. unfold Simulation.simulate in H.
    exact (for_append_first_error _ _ _ _ H).
Qed.

Lemma simulate_one_row_per_scenario_witness :
  let small := {| Simulation.Scenario := "Small"; Simulation.Budget := 100;
                  Simulation.Days := 5; Simulation.CPV := 0.06%float;
                  Simulation.CTR := 0.05%float;
                  Simulation.ConvRate := 0.04%float;
                  Simulation.RevenuePerSale := 100;
                  Simulation.ProfitPerSale := 50 |} in
  let free := {| Simulation.Scenario := "Free"; Simulation.Budget := 0;
                 Simulation.Days := 1; Simulation.CPV := 0.06%float;
                 Simulation.CTR := 0.05%float;
                 Simulation.ConvRate := 0.04%float;
                 Simulation.RevenuePerSale := 100;
                 Simulation.ProfitPerSale := 50 |} in
  (exists rows,
     Simulation.simulate [small; small] = inr rows /\
     map (fun r => (get "Scenario" r, get "Budget" r, get "Days" r)) rows
     = [ (Some (VStr "Small"), Some (VInt 100), Some (VInt 5));
         (Some (VStr "Small"), Some (VInt 100), Some (VInt 5)) ]) /\
  exists before s after rows,
    [small; free; small] = before ++ s :: after /\
    Forall2 (fun s r => Simulation.simulation_row s = inr r) before rows /\
    Simulation.simulation_row s = inl ZeroDivisionError.
Proof.
  intros small free. split.
  - destruct (Simulation.simulate [small; small]) as [e|rows] eqn:H;
      [vm_compute in H; discriminate|].
    exists rows. split; [reflexivity|].
    exact (proj1 (proj2 (simulate_one_row_per_scenario [small; small]))
             rows H).
  - apply (proj2 (proj2 (simulate_one_row_per_scenario
                           [small; free; small]))).
    vm_compute. reflexivity.
Defined.

(** ** The two writers *)




